(** * Buffet Sale Performance chatbot: the answer router and the chat surface

    A shallow embedding of [streamlit_app.py]: the keyword router
    [categorize_task], the general-answer path [handle_general_questions],
    the daily summary [display_sales_summary], the chat page
    [display_chat_page] and the script body that Streamlit re-executes on
    every interaction.

    Python strings are byte strings here (the UTF-8 image of the Python
    text); dictionaries whose iteration order matters are association
    lists in insertion order; the BigQuery client, the Gemini model and
    the random source are oracles that may answer differently on every
    call; calls that can raise return a [result]; the effects a function
    performs are recorded, in order, in a trace of [event]s. *)

From Stdlib Require Import String Ascii List ZArith Lia Bool DecimalString.
Import ListNotations.
Local Open Scope list_scope.
Local Open Scope string_scope.

(** ** Python layer *)

Module Py.

(** Exceptions, all of them subclasses of [Exception], by class.
    [ServiceError] stands for whatever the BigQuery or Gemini client
    raises; [NotModelled] marks a [str.format] replacement field that uses
    attribute access, indexing, a conversion or a format specification,
    none of which occurs in the templates of the program. *)
Inductive exn : Type :=
| NameError (name : string)
| KeyError (key : string)
| IndexError (msg : string)
| ValueError (msg : string)
| TypeError (msg : string)
| ServiceError (msg : string)
| NotModelled (construct : string).

(** [str(e)], as interpolated by [f"...{e}"]. *)
Definition str_exn (e : exn) : string :=
  match e with
  | NameError name => "name '" ++ name ++ "' is not defined"
  | KeyError key => "'" ++ key ++ "'"
  | IndexError msg => msg
  | ValueError msg => msg
  | TypeError msg => msg
  | ServiceError msg => msg
  | NotModelled construct => construct
  end.

Inductive result (A : Type) : Type :=
| Ret (a : A)
| Raise (e : exn).
Arguments Ret {A} a.
Arguments Raise {A} e.

(** Scalars found in a result row.  [VOther] is any other scalar
    (Decimal, float, date, ...) given by the text [str()] prints for it:
    the program only ever prints the values it receives. *)
Inductive value : Type :=
| VStr (s : string)
| VInt (z : Z)
| VNone
| VOther (text : string).

Definition str_value (v : value) : string :=
  match v with
  | VStr s => s
  | VInt z => NilZero.string_of_int (Z.to_int z)
  | VNone => "None"
  | VOther text => text
  end.

(** A row is an insertion-ordered mapping from column name to value (a
    BigQuery [Row] has distinct column names, so [dict(row)] keeps every
    pair in place). *)
Definition row : Type := list (string * value).

Fixpoint getitem (key : string) (d : row) : option value :=
  match d with
  | [] => None
  | (k, v) :: rest => if String.eqb k key then Some v else getitem key rest
  end.

Definition has_key (key : string) (d : row) : bool :=
  match getitem key d with Some _ => true | None => false end.

(** [needle in hay] on strings. *)
Fixpoint contains (needle hay : string) : bool :=
  String.prefix needle hay ||
  match hay with
  | EmptyString => false
  | String _ rest => contains needle rest
  end.

(** [sep.join(parts)]. *)
Definition join (sep : string) (parts : list string) : string :=
  String.concat sep parts.

(** Truth value of a string: non-empty. *)
Definition truthy (s : string) : bool :=
  match s with EmptyString => false | String _ _ => true end.

Definition char (c : ascii) : string := String c EmptyString.

(** *** [str.format] with keyword arguments only

    The template is scanned left to right as CPython's [MarkupIterator]
    does: doubled braces are literal braces, a lone closing brace and an
    unterminated field are [ValueError]s, a field whose name is empty or a
    number indexes the (empty) positional arguments, and any other name is
    looked up among the keyword arguments.  The scan stops at the first
    syntax error; the pieces before it are still rendered first, so that an
    earlier missing keyword wins over a later syntax error. *)
Inductive piece : Type :=
| Lit (c : ascii)
| Field (name : string).

Inductive scan_mode : Type :=
| InText
| AfterOpen
| AfterClose
| InName (name : string).

Definition single_open : exn := ValueError "Single '{' encountered in format string".
Definition single_close : exn := ValueError "Single '}' encountered in format string".
Definition unterminated : exn := ValueError "expected '}' before end of string".
Definition brace_in_name : exn := ValueError "unexpected '{' in field name".
Definition no_positional : exn :=
  IndexError "Replacement index out of range for positional args tuple".

Definition is_digit (c : ascii) : bool :=
  (48 <=? nat_of_ascii c)%nat && (nat_of_ascii c <=? 57)%nat.

Fixpoint all_digits (s : string) : bool :=
  match s with
  | EmptyString => true
  | String c rest => is_digit c && all_digits rest
  end.

(** A keyword field: a name that is neither empty nor a number. *)
Definition keyword_name (name : string) : bool := negb (all_digits name).

Definition compound_marker (c : ascii) : bool :=
  Ascii.eqb c "." || Ascii.eqb c "[" || Ascii.eqb c "!" || Ascii.eqb c ":".

Fixpoint scan (m : scan_mode) (s : string) : list piece * option exn :=
  match s with
  | EmptyString =>
      ([], match m with
           | InText => None
           | AfterOpen => Some single_open
           | AfterClose => Some single_close
           | InName _ => Some unterminated
           end)
  | String c rest =>
      let in_name (name : string) :=
        if Ascii.eqb c "}" then
          if keyword_name name
          then let (ps, e) := scan InText rest in (Field name :: ps, e)
          else ([], Some no_positional)
        else if Ascii.eqb c "{" then ([], Some brace_in_name)
        else if compound_marker c then ([], Some (NotModelled "compound replacement field"))
        else scan (InName (name ++ char c)) rest in
      match m with
      | InText =>
          if Ascii.eqb c "{" then scan AfterOpen rest
          else if Ascii.eqb c "}" then scan AfterClose rest
          else let (ps, e) := scan InText rest in (Lit c :: ps, e)
      | AfterOpen =>
          if Ascii.eqb c "{"
          then let (ps, e) := scan InText rest in (Lit c :: ps, e)
          else in_name EmptyString
      | AfterClose =>
          if Ascii.eqb c "}"
          then let (ps, e) := scan InText rest in (Lit c :: ps, e)
          else ([], Some single_close)
      | InName name => in_name name
      end
  end.

Fixpoint render (kwargs : row) (ps : list piece) (out : string) : result string :=
  match ps with
  | [] => Ret out
  | Lit c :: ps' => render kwargs ps' (out ++ char c)
  | Field name :: ps' =>
      match getitem name kwargs with
      | Some v => render kwargs ps' (out ++ str_value v)
      | None => Raise (KeyError name)
      end
  end.

Definition format (template : string) (kwargs : row) : result string :=
  let (ps, syntax_error) := scan InText template in
  match render kwargs ps EmptyString with
  | Ret out =>
      match syntax_error with
      | None => Ret out
      | Some e => Raise e
      end
  | Raise e => Raise e
  end.

(** The keyword fields the scan reaches, in order. *)
Definition placeholders (template : string) : list string :=
  flat_map (fun p => match p with Field name => [name] | Lit _ => [] end)
           (fst (scan InText template)).


(** *** [str.lower] and [str.strip]

    Both are Unicode-aware in Python.  The development is generic in them;
    [ascii_text] is their restriction to ASCII text, on which they act as
    defined here, and is what the concrete scenarios are evaluated with. *)
Class StrMethods : Type := {
  lower : string -> string;
  strip : string -> string
}.

Definition ascii_lower_char (c : ascii) : ascii :=
  let n := nat_of_ascii c in
  if (65 <=? n)%nat && (n <=? 90)%nat then ascii_of_nat (n + 32) else c.

Fixpoint ascii_lower (s : string) : string :=
  match s with
  | EmptyString => EmptyString
  | String c rest => String (ascii_lower_char c) (ascii_lower rest)
  end.

Definition is_space (c : ascii) : bool :=
  let n := nat_of_ascii c in
  ((9 <=? n)%nat && (n <=? 13)%nat) || ((28 <=? n)%nat && (n <=? 32)%nat).

Fixpoint lstrip (s : string) : string :=
  match s with
  | EmptyString => EmptyString
  | String c rest => if is_space c then lstrip rest else s
  end.

Fixpoint rstrip (s : string) : string :=
  match s with
  | EmptyString => EmptyString
  | String c rest =>
      match rstrip rest with
      | EmptyString => if is_space c then EmptyString else char c
      | kept => String c kept
      end
  end.

Definition ascii_strip (s : string) : string := rstrip (lstrip s).

#[export] Instance ascii_text : StrMethods :=
  {| lower := ascii_lower; strip := ascii_strip |}.

(** *** [json.dumps(obj, indent=2)] for a list of string-to-string dicts *)
Definition dq : string := char (ascii_of_nat 34).
Definition nl : string := char (ascii_of_nat 10).

Fixpoint json_escape (s : string) : string :=
  match s with
  | EmptyString => EmptyString
  | String c rest =>
      if Ascii.eqb c (ascii_of_nat 34) || Ascii.eqb c (ascii_of_nat 92)
      then String (ascii_of_nat 92) (String c (json_escape rest))
      else String c (json_escape rest)
  end.

Definition json_string (s : string) : string := dq ++ json_escape s ++ dq.

Definition json_dict (d : list (string * string)) : string :=
  match d with
  | [] => "{}"
  | _ =>
      "{" ++ nl
      ++ join ("," ++ nl)
           (map (fun kv => "    " ++ json_string (fst kv) ++ ": " ++ json_string (snd kv)) d)
      ++ nl ++ "  }"
  end.

Definition json_dumps (l : list (list (string * string))) : string :=
  match l with
  | [] => "[]"
  | _ =>
      "[" ++ nl
      ++ join ("," ++ nl) (map (fun d => "  " ++ json_dict d) l)
      ++ nl ++ "]"
  end.

End Py.
Import Py.

(** ** Static data of the module *)

Record details : Type := {
  query : string;
  response_template : string
}.

Definition DAILY_SALES_AGGREGATED_TABLE_ID : string := "golden-passkey-439311-c8.f2.Daily_Sales_Aggregated".

Definition MONTH_SALES_SUMMARY_TABLE_ID : string := "golden-passkey-439311-c8.f2.month_sales_summary".

Definition DAILY_SALES_AGGREGATED_SCHEMA : list (list (string * string)) :=
  [ [ ("table_id", DAILY_SALES_AGGREGATED_TABLE_ID) ];
    [ ("field_name", "ETL_Date");
      ("type", "TIMESTAMP");
      ("description", "The date and time when the data was extracted, transformed, and loaded (ETL).") ];
    [ ("field_name", "Branch_ID");
      ("type", "STRING");
      ("description", "Unique identifier for each branch.") ];
    [ ("field_name", "Sales_Date");
      ("type", "DATE");
      ("description", "The date associated with the sales data.") ];
    [ ("field_name", "Total_Daily_Sales");
      ("type", "NUMERIC(18, 2)");
      ("description", "Total daily sales amount for the branch.") ];
    [ ("field_name", "Daily_Target");
      ("type", "NUMERIC(18, 2)");
      ("description", "The sales target set for the branch for the respective date.") ] ].

Definition MONTH_SALES_SUMMARY_SCHEMA : list (list (string * string)) :=
  [ [ ("table_id", MONTH_SALES_SUMMARY_TABLE_ID) ];
    [ ("field_name", "ETL_Date");
      ("type", "TIMESTAMP");
      ("description", "Date and time of ETL process.") ];
    [ ("field_name", "Year");
      ("type", "INTEGER");
      ("description", "Year of the sales data.") ];
    [ ("field_name", "Year_Month");
      ("type", "STRING");
      ("description", "Year and month in 'YYYY-MM' format.") ];
    [ ("field_name", "Month_Name");
      ("type", "STRING");
      ("description", "Month name (e.g., January).") ];
    [ ("field_name", "Branch_ID");
      ("type", "STRING");
      ("description", "Branch identifier.") ];
    [ ("field_name", "Branch_Name");
      ("type", "STRING");
      ("description", "Branch name.") ];
    [ ("field_name", "Total_Monthly_Sales");
      ("type", "NUMERIC");
      ("description", "Total sales for the branch in the month.") ];
    [ ("field_name", "Monthly_Target");
      ("type", "NUMERIC");
      ("description", "Sales target for the branch for the month.") ];
    [ ("field_name", "Number_Of_Customer");
      ("type", "INTEGER");
      ("description", "Number of customers served in the month.") ] ].

Definition general_info : string :=
  "
**About Us**  
We are a small buffet restaurant steadily growing alongside the delicious flavors we serve.
We invite you to savor the taste and variety of dishes we have carefully prepared for you to enjoy during our 2-hour all-you-can-eat experience.  
 
**Price**: Affordable and pocket-friendly, just 299 THB per person.  
**Products**: In addition to our delightful and diverse shabu buffet, we also offer bubble tea, our signature secret broths, and exclusive sauces.  
**Established**: Providing quality shabu dining since 2023.  
**Branches**: 5 convenient locations.  
**Operating Hours**: Open daily: 11:00 AM - 10:00 PM.
".

Definition fallback_responses : list string :=
  [ "Shabu is love, shabu is life! Let us know how we can make your dining experience better.";
    "Did you know our secret broth recipe has been passed down for generations?";
    "You’ll love our exclusive sauces! What else would you like to know?";
    "Bubble tea and shabu – a match made in heaven. Come visit us soon!";
    "Our 299 THB buffet is waiting for you! What other questions do you have?" ].

Definition query_guide_initial : list (string * details) :=
  [ ("Which branch had the highest sales in February?",
     {| query := "
            SELECT
              f2.Branch_ID AS Branch_ID,
              f2.Branch_Name AS Branch_Name,
              SUM(f2.Total_Monthly_Sales) AS Sales
            FROM
              `golden-passkey-439311-c8.f2.month_sales_summary` AS f2
            WHERE
              f2.Year_Month = '2024-02'
            GROUP BY
              f2.Branch_ID, f2.Branch_Name
            ORDER BY
              Sales DESC
            LIMIT 1;
        ";
        response_template :=
          "The branch with the highest sales in February is {Branch_Name} (ID: {Branch_ID}) with total sales of {Sales} baht." |}) ].

Definition query_guide : list (string * details) :=
  [ ("Percentage growth comparison for this year vs. last year",
     {| query := "
            SELECT
                f2_year_sales.Year AS Year,
                f2_year_sales.Branch_ID AS Branch_ID,
                f2_year_sales.Branch_Name AS Branch_Name,
                f2_year_sales.Growth_year AS Growth_year
            FROM
                `golden-passkey-439311-c8.f2.year_sales_summary` AS f2_year_sales
            WHERE
                f2_year_sales.Year = 2024
            GROUP BY
                f2_year_sales.Year, f2_year_sales.Branch_ID, f2_year_sales.Branch_Name, f2_year_sales.Growth_year
            ORDER BY
                Growth_year DESC;
        ";
        response_template :=
          "Percentage growth comparison for 2024:
{result}" |});
    ("What is the % growth for each branch?",
     {| query := "
            SELECT
                f2_month_sales.Branch_ID AS Branch_ID,
                f2_month_sales.Branch_Name AS Branch_Name,
                f2_month_sales.Growth_year AS Percentage_Growth_year
            FROM
                `golden-passkey-439311-c8.f2.month_sales_summary` AS f2_month_sales
            WHERE f2_month_sales.Year_Month = '2024-02'
            GROUP BY
                f2_month_sales.Branch_ID, f2_month_sales.Branch_Name, f2_month_sales.Growth_year
            ORDER BY
                Percentage_Growth_year DESC;
        ";
        response_template :=
          "Here is the percentage growth for each branch in February 2024:
{result}" |});
    ("Customer count changes this month",
     {| query := "
            WITH ranked_data AS (
                SELECT
                    f2_month_sales.Year_Month AS Year_Month,
                    f2_month_sales.Branch_ID AS Branch_ID,
                    f2_month_sales.Branch_Name AS Branch_Name,
                    f2_month_sales.Number_Of_customer AS Number_Of_customer,
                    LAG(f2_month_sales.Number_Of_customer) OVER (
                        PARTITION BY f2_month_sales.Branch_ID
                        ORDER BY f2_month_sales.Year_Month
                    ) AS Last_Month_Customers
                FROM
                    `golden-passkey-439311-c8.f2.month_sales_summary` AS f2_month_sales
            )
            SELECT
                Branch_ID,
                Branch_Name,
                Year_Month,
                Number_Of_customer,
                Last_Month_Customers,
                Number_Of_customer - Last_Month_Customers AS Difference
            FROM ranked_data
            WHERE Year_Month = '2024-02'
            ORDER BY
                Year_Month DESC;
        ";
        response_template :=
          "Here is the customer count change for February 2024:
{result}" |});
    ("How much has the customer count increased this month?",
     {| query := "
            SELECT
                daily_sales.Sales_Date AS Sales_Date,
                daily_sales.Branch_ID AS Branch_ID,
                daily_sales.Branch_Name AS Branch_Name,
                daily_sales.Total_Daily_Sales AS Total_Daily_Sales
            FROM `golden-passkey-439311-c8.f2.daily_sales_summary` AS daily_sales
            WHERE DATE(daily_sales.Sales_Date) BETWEEN '2024-02-01' AND '2024-02-29'
            GROUP BY daily_sales.Branch_ID, daily_sales.Branch_Name, daily_sales.Sales_Date, daily_sales.Total_Daily_Sales;
        ";
        response_template :=
          "Customer count for February 2024 has increased as follows:
{result}" |});
    ("What are today's sales for this branch?",
     {| query := "
            SELECT
                Branch_ID,
                Branch_Name,
                SUM(Total_Daily_Sales) AS Today_Sales
            FROM `golden-passkey-439311-c8.f2.daily_sales_summary`
            WHERE DATE(Sales_Date) = '2024-02-29'
            GROUP BY Branch_ID, Branch_Name;
        ";
        response_template :=
          "Today's sales for February 29, 2024, are:
{result}" |});
    ("End-of-month sales target overview",
     {| query := "
            SELECT
                Branch_ID,
                Branch_Name,
                Total_Monthly_Sales AS Actual_Sales,
                Monthly_Target AS Target_Sales,
                Total_Monthly_Sales - Monthly_Target AS Diff
            FROM `golden-passkey-439311-c8.f2.month_sales_summary`
            WHERE Year_Month = '2024-02'
            ORDER BY Diff ASC
            LIMIT 1;
        ";
        response_template :=
          "End-of-month sales target overview for February 2024:
{result}" |});
    ("Will the overall sales reach the set target by the end of this month?",
     {| query := "
            SELECT
                Year_Month,
                Branch_ID,
                Branch_Name,
                Total_Monthly_Sales AS This_Month_Sales,
                Last_Month_Sales,
                Total_Monthly_Sales - Last_Month_Sales AS Diff
            FROM `golden-passkey-439311-c8.f2.month_sales_summary`
            WHERE Year_Month = '2024-02'
            ORDER BY Diff ASC
            LIMIT 1;
        ";
        response_template :=
          "Sales progress for February 2024:
{result}" |});
    ("Which branch is currently the furthest from its target?",
     {| query := "
            SELECT
                Branch_ID,
                Branch_Name,
                Total_Monthly_Sales AS Actual_Sales,
                Monthly_Target AS Target_Sales,
                Total_Monthly_Sales - Monthly_Target AS Diff
            FROM `golden-passkey-439311-c8.f2.month_sales_summary`
            WHERE Year_Month = '2024-02'
            ORDER BY Diff ASC
            LIMIT 1;
        ";
        response_template :=
          "The branch furthest from its target in February 2024 is {Branch_Name} (ID: {Branch_ID}) with actual sales of {Actual_Sales} baht, a target of {Target_Sales} baht, and a difference of {Diff} baht." |}) ].

Definition summary_query : string :=
  "
            SELECT f2.Branch_ID,
                   f2.Branch_Name,
                   f2.Total_Daily_Sales
            FROM `golden-passkey-439311-c8.f2.daily_sales_summary` as f2
            WHERE DATE(f2.Sales_date) = (
                SELECT MAX(DATE(Sales_date))
                FROM `golden-passkey-439311-c8.f2.daily_sales_summary`
            );
        ".

Definition general_prompt (user_input : string) : string :=
  "
            You are an assistant for a shabu buffet restaurant. Use the following information to answer the user's question:
 
            "
  ++ general_info
  ++ "
 
            User's question:
            " ++ dq
  ++ user_input
  ++ dq ++ "
 
            If you don't know the answer, generate a random shabu buffet-related response.
            ".

Definition dynamic_query_prompt (user_input : string) : string :=
  "
                Based on the schema and query guide, generate a SQL query to address the user input:
 
                **Schema Definitions:**
                DAILY_SALES_AGGREGATED_SCHEMA:
                "
  ++ json_dumps DAILY_SALES_AGGREGATED_SCHEMA
  ++ "
 
                MONTH_SALES_SUMMARY_SCHEMA:
                "
  ++ json_dumps MONTH_SALES_SUMMARY_SCHEMA
  ++ "
 
                **User Input:**
                " ++ dq
  ++ user_input
  ++ dq ++ "
 
                Respond with a valid SQL query without explaining it.
                ".

(** The names bound at module level when [display_chat_page] runs: the
    six imports of lines 1-6 and the module's own assignments and
    functions. *)
Definition module_globals : list string :=
  [ "st"; "genai"; "bigquery"; "logging"; "json"; "os";
    "DAILY_SALES_AGGREGATED_TABLE_ID"; "MONTH_SALES_SUMMARY_TABLE_ID";
    "DAILY_SALES_AGGREGATED_SCHEMA"; "MONTH_SALES_SUMMARY_SCHEMA";
    "logo_url"; "gemini_api_key"; "page"; "model"; "agent_01"; "agent_02";
    "service_account_info"; "client"; "query_guide";
    "display_sales_summary"; "handle_general_questions"; "categorize_task";
    "general_info"; "fallback_responses"; "display_chat_page";
    "display_dashboard_page" ].

Definition query_related_keywords : list string :=
  [ "sales"; "target"; "growth"; "customer"; "branch" ].

(** ** Effects *)

(** A [genai.GenerativeModel] object. *)
Inductive agent : Type :=
| GenerativeModel (model_name : string).

Inductive event : Type :=
| Query (sql : string)                      (* client.query(sql).result() *)
| GenerateContent (prompt : string)         (* agent.generate_content(prompt).text *)
| LogError (msg : string)                   (* logging.error(msg) *)
| StError (msg : string)                    (* st.error(msg) *)
| ChatMessage (role text : string)          (* st.chat_message(role).markdown(text) *)
| Sidebar (level text : string).            (* st.sidebar.success / error / warning *)

Definition trace : Type := list event.

(** The collaborators.  Each answer may depend on everything that happened
    before the call, so a service can answer the same request differently
    at different times; [Raise] is any exception of the client library. *)
Record services : Type := {
  bigquery : trace -> string -> result (list row);
  gemini : trace -> agent -> string -> result string;
  random_source : trace -> nat
}.

(** Computations over a state [S] that may raise.  A raise keeps the
    state reached so far: what was logged or stored before the exception
    stays logged and stored. *)
Definition ST (S A : Type) : Type := S -> result A * S.

Definition ret {S A : Type} (a : A) : ST S A := fun s => (Ret a, s).

Definition raise {S A : Type} (e : exn) : ST S A := fun s => (Raise e, s).

Definition bind {S A B : Type} (m : ST S A) (k : A -> ST S B) : ST S B :=
  fun s =>
    match m s with
    | (Ret a, s') => k a s'
    | (Raise e, s') => (Raise e, s')
    end.

(** [try: body except Exception as e: handler]. *)
Definition try_except {S A : Type} (body : ST S A) (handler : exn -> ST S A) : ST S A :=
  fun s =>
    match body s with
    | (Ret a, s') => (Ret a, s')
    | (Raise e, s') => handler e s'
    end.

(** The functions below the chat page only extend the trace. *)
Definition M (A : Type) : Type := ST trace A.

Definition emit (ev : event) : M unit := fun t => (Ret tt, (t ++ [ev])%list).

Definition lift {A : Type} (r : result A) : M A := fun t => (r, t).

Declare Scope py_scope.
Delimit Scope py_scope with py.
Notation "x <- m ;; k" := (bind m (fun x => k))
  (at level 61, m at next level, right associativity) : py_scope.
Notation "m ;; k" := (bind m (fun _ => k))
  (at level 61, right associativity) : py_scope.
Local Open Scope py_scope.

(** [[f(x) for x in xs]] where [f] may raise. *)
Fixpoint map_result {A B : Type} (f : A -> result B) (xs : list A) : result (list B) :=
  match xs with
  | [] => Ret []
  | x :: rest =>
      match f x with
      | Raise e => Raise e
      | Ret y =>
          match map_result f rest with
          | Raise e => Raise e
          | Ret ys => Ret (y :: ys)
          end
      end
  end.

(** [d[key]]. *)
Definition subscript (d : row) (key : string) : result value :=
  match getitem key d with
  | Some v => Ret v
  | None => Raise (KeyError key)
  end.

(** ** The program *)

(** The module-level names the functions read when they are called. *)
Record globals : Type := {
  agent_01 : option agent;
  agent_02 : option agent;
  guide : list (string * details)
}.

Record session_state : Type := {
  chat_history : list (string * string);
  sales_summary_displayed : bool
}.

Section Program.

Context {SM : StrMethods}.
Variable X : services.

Definition client_query (sql : string) : M (list row) :=
  fun t => (bigquery X t sql, (t ++ [Query sql])%list).

Definition generate_content (a : agent) (prompt : string) : M string :=
  fun t => (gemini X t a prompt, (t ++ [GenerateContent prompt])%list).

Definition logging_error (msg : string) : M unit := emit (LogError msg).
Definition st_error (msg : string) : M unit := emit (StError msg).
Definition chat_message (role text : string) : M unit := emit (ChatMessage role text).

(** Evaluating a global name that is not a builtin: [NameError] when the
    module never binds it. *)
Definition global_name (name : string) : M unit :=
  if existsb (String.eqb name) module_globals then ret tt else raise (NameError name).

(** [random.choice(seq)]: the name [random] is resolved first. *)
Definition random_choice (seq : list string) : M string :=
  global_name "random" ;;
  fun t =>
    match nth_error seq (random_source X t mod List.length seq) with
    | Some s => (Ret s, t)
    | None => (Raise (IndexError "Cannot choose from an empty sequence"), t)
    end.

(** [", ".join(f"{key}: {value}" for key, value in row.items())]. *)
Definition render_row (r : row) : string :=
  join ", " (map (fun kv => fst kv ++ ": " ++ str_value (snd kv)) r).

Definition render_rows (rows : list row) : string :=
  join nl (map render_row rows).

(** Lines 111-134. *)
Definition summary_line (r : row) : result string :=
  match subscript r "Branch_ID" with
  | Raise e => Raise e
  | Ret branch_id =>
      match subscript r "Branch_Name" with
      | Raise e => Raise e
      | Ret branch_name =>
          match subscript r "Total_Daily_Sales" with
          | Raise e => Raise e
          | Ret total =>
              Ret ("Branch " ++ str_value branch_id ++ " " ++ str_value branch_name
                   ++ " total sale is " ++ str_value total ++ " baht")
          end
      end
  end.

Definition display_sales_summary : M (option string) :=
  try_except
    (results <- client_query summary_query ;;
     formatted_summary <- lift (map_result summary_line results) ;;
     ret (Some (join nl formatted_summary)))
    (fun e =>
       st_error ("Error fetching sales summary: " ++ str_exn e) ;;
       logging_error ("Error fetching sales summary: " ++ str_exn e) ;;
       ret None).

(** Lines 137-161. *)
Definition agent_01_missing : string :=
  "Agent 01 is not configured. Please provide a valid Gemini API Key.".

Definition agent_02_missing : string :=
  "Agent 02 is not configured. Please provide a valid Gemini API Key.".

Definition handle_general_questions (G : globals) (user_input : string) : M string :=
  match agent_02 G with
  | Some a =>
      try_except
        (response <- generate_content a (general_prompt user_input) ;;
         if truthy (strip response)
         then ret (strip response)
         else random_choice fallback_responses)
        (fun e =>
           logging_error ("Error in Agent 02 response generation: " ++ str_exn e) ;;
           random_choice fallback_responses)
  | None => ret agent_02_missing
  end.

(** [any(keyword in user_input.lower() for keyword in query_related_keywords)]
    (line 169, and again at lines 447-449). *)
Definition is_query_related (user_input : string) : bool :=
  existsb (fun keyword => contains keyword (lower user_input)) query_related_keywords.

(** [response_template.format(result=..., **result_dict[0])]: a column
    called [result] is a second value for the same keyword. *)
Definition format_response (response_template : string) (result_dict : list row)
                           (first : row) : result string :=
  if has_key "result" first
  then Raise (TypeError "str.format() got multiple values for keyword argument 'result'")
  else format response_template (("result", VStr (render_rows result_dict)) :: first).

(** Lines 178-192: the body run for the matched catalogue entry. *)
Definition no_results : string := "No results found for your query.".

Definition answer_from_guide (d : details) : M string :=
  result_dict <- client_query (query d) ;;
  match result_dict with
  | first :: _ => lift (format_response (response_template d) result_dict first)
  | [] => ret no_results
  end.

(** Lines 194-223: the query is written by the model and run verbatim. *)
Definition answer_dynamically (a : agent) (user_input : string) : M string :=
  response <- generate_content a (dynamic_query_prompt user_input) ;;
  result_dict <- client_query (strip response) ;;
  match result_dict with
  | _ :: _ => ret (render_rows result_dict)
  | [] => ret no_results
  end.

(** Lines 173-223: the [for] loop over [query_guide.items()], which
    returns from inside its first matching iteration, then the code after
    the loop. *)
Fixpoint match_guide (a : agent) (user_input : string)
                     (items : list (string * details)) : M string :=
  match items with
  | [] => answer_dynamically a user_input
  | (question, d) :: rest =>
      if contains (lower question) (lower user_input)
      then answer_from_guide d
      else match_guide a user_input rest
  end.

(** Lines 225-227: the handler of the router's [try]. *)
Definition apology : string :=
  "Sorry, I couldn't process your query. Please try again later.".

Definition log_and_apologise (e : exn) : M string :=
  logging_error ("Error in Agent 01 task categorization: " ++ str_exn e) ;;
  ret apology.

(** Lines 164-232. *)
Definition categorize_task (G : globals) (user_input : string) : M string :=
  if is_query_related user_input then
    match agent_01 G with
    | Some a => try_except (match_guide a user_input (guide G)) log_and_apologise
    | None => ret agent_01_missing
    end
  else handle_general_questions G user_input.

(** *** The chat page and the script *)

(** What a script run works on: the session state, which Streamlit keeps
    from one run to the next, and the trace of effects. *)
Record world : Type := {
  session : session_state;
  effects : trace
}.

Definition P (A : Type) : Type := ST world A.

Definition run {A : Type} (m : M A) : P A :=
  fun w =>
    let (r, t) := m (effects w) in
    (r, {| session := session w; effects := t |}).

Definition read_session : P session_state := fun w => (Ret (session w), w).

(** [st.session_state.chat_history.append(turn)]. *)
Definition history_append (turn : string * string) : P unit :=
  fun w =>
    (Ret tt,
     {| session :=
          {| chat_history := (chat_history (session w) ++ [turn])%list;
             sales_summary_displayed := sales_summary_displayed (session w) |};
        effects := effects w |}).

(** [st.session_state.sales_summary_displayed = True]. *)
Definition mark_summary_displayed : P unit :=
  fun w =>
    (Ret tt,
     {| session :=
          {| chat_history := chat_history (session w);
             sales_summary_displayed := true |};
        effects := effects w |}).

Fixpoint for_each {A : Type} (xs : list A) (body : A -> P unit) : P unit :=
  match xs with
  | [] => ret tt
  | x :: rest => body x ;; for_each rest body
  end.

Definition no_summary_message : string := "No sales summary available at the moment.".

Definition summary_heading : string := "### Daily Sales Summary:" ++ nl ++ nl.

(** Lines 424-434: the body of the summary [if]. *)
Definition show_sales_summary : P unit :=
  summary <- run display_sales_summary ;;
  (match summary with
   | Some (String _ _ as text) =>
       run (chat_message "assistant" (summary_heading ++ text)) ;;
       history_append ("assistant", summary_heading ++ text)
   | _ =>
       run (chat_message "assistant" no_summary_message) ;;
       history_append ("assistant", no_summary_message)
   end) ;;
  mark_summary_displayed.

(** Lines 437-438. *)
Definition replay_history : P unit :=
  current <- read_session ;;
  for_each (chat_history current)
           (fun turn => run (chat_message (fst turn) (snd turn))).

(** Lines 442-451: the body of the input [if]. *)
Definition answer_user (G : globals) (user_input : string) : P unit :=
  history_append ("user", user_input) ;;
  run (chat_message "user" user_input) ;;
  response <- run (categorize_task G user_input) ;;
  let agent_role := if is_query_related user_input then "agent_01" else "agent_02" in
  history_append (agent_role, response) ;;
  run (chat_message agent_role response).

(** Lines 393-451 (the static page headers are markup only and are left
    out). *)
Definition display_chat_page (G : globals) (gemini_api_key : string)
                             (chat_input : option string) : P unit :=
  before <- read_session ;;
  (if truthy gemini_api_key && negb (sales_summary_displayed before)
   then show_sales_summary
   else ret tt) ;;
  replay_history ;;
  match chat_input with
  | Some (String _ _ as user_input) => answer_user G user_input
  | _ => ret tt
  end.

(** What one run of the script receives from outside: the widgets' values
    and how the two client libraries behave while they are set up. *)
Inductive page_choice : Type := Chat | Dashboard.

Inductive genai_step : Type := Configure | MakeModel | MakeAgent01 | MakeAgent02.

Record run_input : Type := {
  gemini_api_key : string;
  page : page_choice;
  chat_input : option string;
  genai_failure : option (genai_step * exn);
  bigquery_setup : result unit
}.

(** Lines 56-70: [(model, agent_01, agent_02)]. *)
Definition configure_gemini (inp : run_input)
  : M (option agent * option agent * option agent) :=
  let made := Some (GenerativeModel "gemini-pro") in
  if truthy (gemini_api_key inp) then
    match genai_failure inp with
    | None =>
        emit (Sidebar "success" "Gemini API Key configured successfully.") ;;
        ret (made, made, made)
    | Some (step, e) =>
        emit (Sidebar "error" ("Error configuring Gemini API: " ++ str_exn e)) ;;
        logging_error ("Gemini API Error: " ++ str_exn e) ;;
        ret (match step with
             | Configure | MakeModel => (None, None, None)
             | MakeAgent01 => (made, None, None)
             | MakeAgent02 => (made, made, None)
             end)
    end
  else
    emit (Sidebar "warning" "Please provide a valid Gemini API Key.") ;;
    ret (None, None, None).

(** The module body, run top to bottom on every interaction.  [query_guide]
    is bound at line 89 ([query_guide_initial]) and bound again at line
    234; the functions are only called at line 487, so they read the second
    binding.  [st.stop()] ends the run. *)
Definition script (inp : run_input) : P unit :=
  agents <- run (configure_gemini inp) ;;
  match bigquery_setup inp with
  | Raise e =>
      run (st_error ("Error setting up BigQuery: " ++ str_exn e)) ;;
      run (logging_error ("BigQuery Setup Error: " ++ str_exn e))
  | Ret _ =>
      let G := {| agent_01 := snd (fst agents);
                  agent_02 := snd agents;
                  guide := query_guide |} in
      match page inp with
      | Chat => display_chat_page G (gemini_api_key inp) (chat_input inp)
      | Dashboard => ret tt
      end
  end.

(** A session: the script is run once per interaction, each run starting
    from the session state the previous one left, whether that run ended
    normally or with an exception. *)
Definition initial_session : session_state :=
  {| chat_history := []; sales_summary_displayed := false |}.

Definition initial_world : world :=
  {| session := initial_session; effects := [] |}.

Definition run_session (inputs : list run_input) : world :=
  fold_left (fun w inp => snd (script inp w)) inputs initial_world.

End Program.

(** ** Concrete collaborators for the scenarios *)

(** A warehouse that answers every query with [rows] and a model whose
    every call ends as [answer]. *)
Definition fixed_services (rows : result (list row)) (answer : result string) : services :=
  {| bigquery := fun _ _ => rows;
     gemini := fun _ _ _ => answer;
     random_source := fun _ => 0 |}.

Definition gemini_pro : agent := GenerativeModel "gemini-pro".

Definition configured (items : list (string * details)) : globals :=
  {| agent_01 := Some gemini_pro; agent_02 := Some gemini_pro; guide := items |}.

Definition unconfigured (items : list (string * details)) : globals :=
  {| agent_01 := None; agent_02 := None; guide := items |}.

Definition silom_row : row :=
  [ ("Branch_ID", VStr "B01"); ("Branch_Name", VStr "Silom"); ("Sales", VInt 150000) ].

Definition february_question : string :=
  "Which branch had the highest sales in February?".

Definition february_template : string :=
  "The branch with the highest sales in February is {Branch_Name} (ID: {Branch_ID}) with total sales of {Sales} baht.".

Definition february_input : string :=
  "Which branch had the highest sales in February? Please tell me".

Definition february_answer : string :=
  "The branch with the highest sales in February is Silom (ID: B01) with total sales of 150000 baht.".

Definition furthest_question : string :=
  "Which branch is currently the furthest from its target?".

(** A first row that lacks the [Actual_Sales], [Target_Sales] and [Diff]
    columns the template of [furthest_question] names. *)
Definition short_row : row :=
  [ ("Branch_ID", VStr "B01"); ("Branch_Name", VStr "Silom") ].

Definition chat_turn (key : string) (text : option string) : run_input :=
  {| gemini_api_key := key;
     page := Chat;
     chat_input := text;
     genai_failure := None;
     bigquery_setup := Ret tt |}.

(** The entry for [furthest_question], the last of the catalogue in force. *)
Definition furthest_details : details :=
  snd (nth 7 query_guide (EmptyString, {| query := EmptyString;
                                          response_template := EmptyString |})).

(** A data question that no catalogue entry covers. *)
Definition tea_question : string := "How are the sales of bubble tea?".

Definition opening_hours_question : string := "hello, what's your opening hours?".

(** The turns the summary block of the chat page appends: it is the only
    writer of the role [assistant] (lines 428 and 433). *)
Definition is_summary_turn (turn : string * string) : bool :=
  String.eqb (fst turn) "assistant".

Definition summary_turns (history : list (string * string)) : list (string * string) :=
  filter is_summary_turn history.

Definition is_query (ev : event) : bool :=
  match ev with Query _ => true | _ => false end.

(** [needle] occurs in [hay]. *)
Definition occurs_in (needle hay : string) : Prop :=
  exists before after : string, hay = before ++ needle ++ after.

(** What a summary turn says: the heading followed by the summary, or
    the message that stands for a missing summary. *)
Definition summary_text (text : string) : Prop :=
  text = no_summary_message \/ exists body : string, text = summary_heading ++ body.

(** The history holds one summary turn once the flag is set and none
    before, and every turn of role [assistant] carries a summary text. *)
Definition summary_once (s : session_state) : Prop :=
  List.length (summary_turns (chat_history s))
  = (if sales_summary_displayed s then 1 else 0)%nat
  /\ Forall (fun turn => summary_text (snd turn)) (summary_turns (chat_history s)).

(** [w'] continues [w]: the history of [w] is a prefix of the history of
    [w'], and [summary_once] carries over. *)
Definition continues (w w' : world) : Prop :=
  (exists added : list (string * string),
      chat_history (session w') = (chat_history (session w) ++ added)%list)
  /\ (summary_once (session w) -> summary_once (session w')).

(** A page computation that appends no summary turn and leaves the flag
    alone. *)
Definition quiet {A : Type} (m : P A) : Prop :=
  forall w : world,
    exists added : list (string * string),
      chat_history (session (snd (m w))) = (chat_history (session w) ++ added)%list
      /\ summary_turns added = []
      /\ sales_summary_displayed (session (snd (m w)))
         = sales_summary_displayed (session w).

(** Computations that run no warehouse query. *)
Definition no_query (added : trace) : Prop :=
  forallb (fun ev => negb (is_query ev)) added = true.

Definition query_free {A : Type} (m : M A) : Prop :=
  forall t : trace,
    exists added : trace, snd (m t) = (t ++ added)%list /\ no_query added.

Definition page_query_free {A : Type} (m : P A) : Prop :=
  forall w : world,
    exists added : trace,
      effects (snd (m w)) = (effects w ++ added)%list /\ no_query added.

(** ** Vocabulary of the further properties *)

Definition is_generate (ev : event) : bool :=
  match ev with GenerateContent _ => true | _ => false end.

Definition is_log (ev : event) : bool :=
  match ev with LogError _ => true | _ => false end.

Definition count_events (p : event -> bool) (t : trace) : nat :=
  List.length (filter p t).

(** The chat messages that showing a list of turns produces. *)
Definition messages (history : list (string * string)) : trace :=
  map (fun turn => ChatMessage (fst turn) (snd turn)) history.

(** The roles the chat page writes (lines 428, 433, 442, 447-450). *)
Definition known_role (role : string) : bool :=
  existsb (String.eqb role) [ "assistant"; "user"; "agent_01"; "agent_02" ].

(** The three columns [display_sales_summary] reads from a row. *)
Definition has_summary_columns (r : row) : bool :=
  has_key "Branch_ID" r && has_key "Branch_Name" r && has_key "Total_Daily_Sales" r.

(** [d.get(key)], with [None] for a missing key. *)
Definition column (key : string) (r : row) : value :=
  match getitem key r with Some v => v | None => VNone end.

(** The sentence of line 127 for a row that has the three columns. *)
Definition summary_sentence (r : row) : string :=
  "Branch " ++ str_value (column "Branch_ID" r) ++ " "
  ++ str_value (column "Branch_Name" r)
  ++ " total sale is " ++ str_value (column "Total_Daily_Sales" r) ++ " baht".

Definition role_of (data_question : bool) : string :=
  if data_question then "agent_01" else "agent_02".

Fixpoint no_braces (s : string) : bool :=
  match s with
  | EmptyString => true
  | String c rest => negb (Ascii.eqb c "{") && negb (Ascii.eqb c "}") && no_braces rest
  end.

(** Page computations that return normally from every state. *)
Definition returns {A : Type} (m : P A) : Prop :=
  forall w : world, exists a : A, fst (m w) = Ret a.

(** Page computations that only add to the trace. *)
Definition extends_effects {A : Type} (m : P A) : Prop :=
  forall w : world, exists added : trace, effects (snd (m w)) = (effects w ++ added)%list.

(** Page computations that append turns of known roles only and never
    unset the summary flag. *)
Definition orderly {A : Type} (m : P A) : Prop :=
  forall w : world,
    (exists added : list (string * string),
        chat_history (session (snd (m w))) = (chat_history (session w) ++ added)%list
        /\ forallb (fun turn => known_role (fst turn)) added = true)
    /\ (sales_summary_displayed (session w) = true ->
        sales_summary_displayed (session (snd (m w))) = true).

(** The text of the summary turn for rows that have the three columns. *)
Definition summary_of (rows : list row) : string :=
  summary_heading ++ join nl (map summary_sentence rows).

(** What the summary block leaves behind when the summary is missing,
    after [pre] was recorded by [display_sales_summary]. *)
Definition without_summary (w : world) (pre : trace) : result unit * world :=
  (Ret tt,
   {| session :=
        {| chat_history :=
             (chat_history (session w) ++ [("assistant", no_summary_message)])%list;
           sales_summary_displayed := true |};
      effects := (effects w ++ pre ++ [ChatMessage "assistant" no_summary_message])%list |}).


(** The events a configuration or a set-up failure may record: notices
    and log entries, no service call and no chat message. *)
Definition is_notice (ev : event) : bool :=
  match ev with
  | Sidebar _ _ | LogError _ | StError _ => true
  | _ => false
  end.

(** The world after the user's turn was stored and shown. *)
Definition asked (w : world) (u : string) : world :=
  {| session :=
       {| chat_history := (chat_history (session w) ++ [("user", u)])%list;
          sales_summary_displayed := sales_summary_displayed (session w) |};
     effects := (effects w ++ [ChatMessage "user" u])%list |}.

(** Further concrete inputs. *)
Definition daily_row : row :=
  [ ("Branch_ID", VStr "B01"); ("Branch_Name", VStr "Silom");
    ("Total_Daily_Sales", VInt 42000) ].

Definition result_row : row := [ ("result", VInt 1); ("Branch_ID", VStr "B01") ].

Definition dashboard_visit : run_input :=
  {| gemini_api_key := "key";
     page := Dashboard;
     chat_input := None;
     genai_failure := None;
     bigquery_setup := Ret tt |}.

(** * Properties *)

(** ** Substring test *)

Lemma prefix_spec (p s : string) :
  String.prefix p s = true <-> exists r : string, s = p ++ r.
Proof.
  revert s; induction p as [|a p IH]; intros [|b s]; simpl.
  - split; [intros _; now exists EmptyString | reflexivity].
  - split; [intros _; now exists (String b s) | reflexivity].
  - split; [discriminate | intros [r H]; discriminate].
  - destruct (ascii_dec a b) as [->|Hab].
    + rewrite IH. split; intros [r H]; exists r.
      * now rewrite H.
      * now injection H.
    + split; [discriminate | intros [r H]; injection H; intros; now subst].
Qed.

Lemma contains_spec (needle hay : string) :
  contains needle hay = true <-> occurs_in needle hay.
Proof.
  unfold occurs_in.
  induction hay as [|c hay IH]; cbn [contains].
  - rewrite orb_false_r, prefix_spec. split.
    + intros [r H]. exists EmptyString, r. exact H.
    + intros [[|c before] [after H]]; [now exists after | discriminate].
  - rewrite orb_true_iff, prefix_spec, IH. split.
    + intros [[r H] | [before [after H]]].
      * exists EmptyString, r. exact H.
      * exists (String c before), after. simpl. now rewrite H.
    + intros [[|c' before] [after H]].
      * left. now exists after.
      * right. exists before, after. simpl in H. now injection H.
Qed.

Lemma contains_false (needle hay : string) :
  contains needle hay = false <-> ~ occurs_in needle hay.
Proof.
  rewrite <- contains_spec. destruct (contains needle hay); split; intros H;
    try reflexivity; try discriminate; try (now destruct H).
Qed.

(** ** The router *)

Section Router.

Context {SM : StrMethods}.
Variable X : services.

Lemma random_choice_raises (seq : list string) (t : trace) :
  random_choice X seq t = (Raise (NameError "random"), t).
Proof. reflexivity. Qed.

(** The four ways the general-answer path can end. *)
Lemma handle_general_questions_unconfigured (G : globals) (u : string) (t : trace) :
  agent_02 G = None ->
  handle_general_questions X G u t = (Ret agent_02_missing, t).
Proof. intros H. unfold handle_general_questions. now rewrite H. Qed.

Lemma handle_general_questions_answer (G : globals) (a : agent) (u s : string) (t : trace) :
  agent_02 G = Some a ->
  gemini X t a (general_prompt u) = Ret s ->
  truthy (strip s) = true ->
  handle_general_questions X G u t
  = (Ret (strip s), (t ++ [GenerateContent (general_prompt u)])%list).
Proof.
  intros Ha Hg Hs. unfold handle_general_questions. rewrite Ha.
  unfold try_except, bind, generate_content. rewrite Hg, Hs. reflexivity.
Qed.

Lemma handle_general_questions_blank (G : globals) (a : agent) (u s : string) (t : trace) :
  agent_02 G = Some a ->
  gemini X t a (general_prompt u) = Ret s ->
  truthy (strip s) = false ->
  handle_general_questions X G u t
  = (Raise (NameError "random"),
     (t ++ [GenerateContent (general_prompt u);
            LogError ("Error in Agent 02 response generation: "
                      ++ str_exn (NameError "random"))])%list).
Proof.
  intros Ha Hg Hs. unfold handle_general_questions. rewrite Ha.
  unfold try_except, bind, generate_content. rewrite Hg, Hs.
  rewrite random_choice_raises. unfold logging_error, emit.
  rewrite random_choice_raises. now rewrite <- app_assoc.
Qed.

Lemma handle_general_questions_failure (G : globals) (a : agent) (u : string)
                                       (e : exn) (t : trace) :
  agent_02 G = Some a ->
  gemini X t a (general_prompt u) = Raise e ->
  handle_general_questions X G u t
  = (Raise (NameError "random"),
     (t ++ [GenerateContent (general_prompt u);
            LogError ("Error in Agent 02 response generation: " ++ str_exn e)])%list).
Proof.
  intros Ha Hg. unfold handle_general_questions. rewrite Ha.
  unfold try_except, bind, generate_content. rewrite Hg.
  unfold logging_error, emit.
  rewrite random_choice_raises. now rewrite <- app_assoc.
Qed.

Lemma handle_general_questions_no_query (G : globals) (u : string) (t : trace) :
  exists added : trace,
    snd (handle_general_questions X G u t) = (t ++ added)%list
    /\ forallb (fun ev => negb (is_query ev)) added = true.
Proof.
  destruct (agent_02 G) as [a|] eqn:Ha.
  - destruct (gemini X t a (general_prompt u)) as [s|e] eqn:Hg.
    + destruct (truthy (strip s)) eqn:Hs.
      * rewrite (handle_general_questions_answer G a u s t Ha Hg Hs).
        now eexists.
      * rewrite (handle_general_questions_blank G a u s t Ha Hg Hs).
        now eexists.
    + rewrite (handle_general_questions_failure G a u e t Ha Hg). now eexists.
  - rewrite (handle_general_questions_unconfigured G u t Ha).
    exists []. now rewrite app_nil_r.
Qed.

Lemma is_query_related_false (u : string) :
  (forall keyword, In keyword query_related_keywords -> ~ occurs_in keyword (lower u)) ->
  is_query_related u = false.
Proof.
  intros H. unfold is_query_related.
  apply not_true_is_false. intros Hex.
  apply existsb_exists in Hex as [keyword [Hin Hc]].
  apply contains_spec in Hc. exact (H keyword Hin Hc).
Qed.

(** A failing model call on a general question always ends in the
    [NameError], whatever the question and the failure. *)
Lemma general_question_failure_escapes (G : globals) (a : agent) (u : string)
                                       (e : exn) (t : trace) :
  is_query_related u = false ->
  agent_02 G = Some a ->
  gemini X t a (general_prompt u) = Raise e ->
  fst (categorize_task X G u t) = Raise (NameError "random").
Proof.
  intros Hq Ha Hg. unfold categorize_task. rewrite Hq.
  now rewrite (handle_general_questions_failure G a u e t Ha Hg).
Qed.

Lemma is_query_related_true (u keyword : string) :
  In keyword query_related_keywords ->
  occurs_in keyword (lower u) ->
  is_query_related u = true.
Proof.
  intros Hin Hocc. unfold is_query_related.
  apply existsb_exists. exists keyword. split; [exact Hin | now apply contains_spec].
Qed.

Lemma categorize_task_data (G : globals) (a : agent) (u : string) :
  is_query_related u = true ->
  agent_01 G = Some a ->
  categorize_task X G u = try_except (match_guide X a u (guide G)) (log_and_apologise).
Proof. intros Hq Ha. unfold categorize_task. now rewrite Hq, Ha. Qed.

Lemma match_guide_hit (a : agent) (u : string) (before : list (string * details))
                      (question : string) (d : details) (after : list (string * details)) :
  (forall q' d', In (q', d') before -> ~ occurs_in (lower q') (lower u)) ->
  occurs_in (lower question) (lower u) ->
  match_guide X a u (before ++ (question, d) :: after) = answer_from_guide X d.
Proof.
  induction before as [|[q0 d0] before IH]; intros Hnone Hocc; simpl.
  - apply contains_spec in Hocc. now rewrite Hocc.
  - assert (H0 : contains (lower q0) (lower u) = false).
    { apply contains_false. apply (Hnone q0 d0). now left. }
    rewrite H0. apply IH; [|exact Hocc].
    intros q' d' Hin. apply (Hnone q' d'). now right.
Qed.

Lemma match_guide_miss (a : agent) (u : string) (items : list (string * details)) :
  (forall q' d', In (q', d') items -> ~ occurs_in (lower q') (lower u)) ->
  match_guide X a u items = answer_dynamically X a u.
Proof.
  induction items as [|[q0 d0] items IH]; intros Hnone; simpl.
  - reflexivity.
  - assert (H0 : contains (lower q0) (lower u) = false).
    { apply contains_false. apply (Hnone q0 d0). now left. }
    rewrite H0. apply IH. intros q' d' Hin. apply (Hnone q' d'). now right.
Qed.

(** C1. On a data question the router scans the catalogue in registration
    order: the first entry whose canonical question, lower-cased, occurs in
    the lower-cased user text is the one whose query is run and whose
    template is used; when no entry's question occurs in the text, the
    dynamic-SQL path is taken. *)
Theorem catalog_lookup_first_match (G : globals) (a : agent) (u : string) :
  (is_query_related u = true -> agent_01 G = Some a ->
   categorize_task X G u = try_except (match_guide X a u (guide G)) (log_and_apologise))
  /\ (forall before question d after,
        guide G = (before ++ (question, d) :: after)%list ->
        (forall q' d', In (q', d') before -> ~ occurs_in (lower q') (lower u)) ->
        occurs_in (lower question) (lower u) ->
        match_guide X a u (guide G) = answer_from_guide X d)
  /\ ((forall q' d', In (q', d') (guide G) -> ~ occurs_in (lower q') (lower u)) ->
      match_guide X a u (guide G) = answer_dynamically X a u).
Proof.
  split; [|split].
  - apply categorize_task_data.
  - intros before question d after ->. apply match_guide_hit.
  - apply match_guide_miss.
Qed.

(** C2. A text whose lower-case form contains none of the five routing
    keywords is answered by the general-answer path, and that path runs no
    warehouse query. *)
Theorem no_keyword_general_path (G : globals) (u : string) (t : trace) :
  (forall keyword, In keyword query_related_keywords -> ~ occurs_in keyword (lower u)) ->
  categorize_task X G u t = handle_general_questions X G u t
  /\ exists added : trace,
       snd (categorize_task X G u t) = (t ++ added)%list
       /\ forallb (fun ev => negb (is_query ev)) added = true.
Proof.
  intros H. apply is_query_related_false in H.
  assert (E : categorize_task X G u t = handle_general_questions X G u t).
  { unfold categorize_task. now rewrite H. }
  split; [exact E|]. rewrite E. apply handle_general_questions_no_query.
Qed.

End Router.

(** ** Answers of the data path *)

Section Answers.

Context {SM : StrMethods}.
Variable X : services.

Lemma answer_from_guide_rows (d : details) (t : trace) (first : row) (more : list row) :
  bigquery X t (query d) = Ret (first :: more) ->
  answer_from_guide X d t
  = (format_response (response_template d) (first :: more) first,
     (t ++ [Query (query d)])%list).
Proof.
  intros H. unfold answer_from_guide, bind, client_query. now rewrite H.
Qed.

Lemma answer_from_guide_empty (d : details) (t : trace) :
  bigquery X t (query d) = Ret [] ->
  answer_from_guide X d t = (Ret no_results, (t ++ [Query (query d)])%list).
Proof.
  intros H. unfold answer_from_guide, bind, client_query. now rewrite H.
Qed.

Lemma answer_dynamically_empty (a : agent) (u sql_text : string) (t : trace) :
  gemini X t a (dynamic_query_prompt u) = Ret sql_text ->
  bigquery X (t ++ [GenerateContent (dynamic_query_prompt u)])%list (strip sql_text) = Ret [] ->
  answer_dynamically X a u t
  = (Ret no_results,
     (t ++ [GenerateContent (dynamic_query_prompt u); Query (strip sql_text)])%list).
Proof.
  intros Hg Hq. unfold answer_dynamically, bind, generate_content, client_query.
  rewrite Hg, Hq. now rewrite <- app_assoc.
Qed.

Lemma try_except_ret {A : Type} (body : M A) (handler : exn -> M A) (t t' : trace) (a : A) :
  body t = (Ret a, t') -> try_except body handler t = (Ret a, t').
Proof. intros H. unfold try_except. now rewrite H. Qed.

Lemma try_except_apology (body : M string) (t t' : trace) (e : exn) :
  body t = (Raise e, t') ->
  try_except body log_and_apologise t
  = (Ret apology,
     (t' ++ [LogError ("Error in Agent 01 task categorization: " ++ str_exn e)])%list).
Proof. intros H. unfold try_except. now rewrite H. Qed.

(** The router's [try] absorbs every exception: a data question always
    gets a string back. *)
Lemma categorize_task_data_returns (G : globals) (u : string) (t : trace) :
  is_query_related u = true ->
  exists reply : string, fst (categorize_task X G u t) = Ret reply.
Proof.
  intros Hq. unfold categorize_task. rewrite Hq.
  destruct (agent_01 G) as [a|]; [|now eexists].
  unfold try_except.
  destruct (match_guide X a u (guide G) t) as [[reply|e] t']; now eexists.
Qed.

Lemma render_missing (kwargs : row) (p : string) (ps : list piece) (out : string) :
  In p (flat_map (fun x => match x with Field name => [name] | Lit _ => [] end) ps) ->
  getitem p kwargs = None ->
  exists missing : string, render kwargs ps out = Raise (KeyError missing).
Proof.
  revert out. induction ps as [|[c|name] ps IH]; intros out Hin Hp; simpl in *.
  - contradiction.
  - now apply IH.
  - destruct (getitem name kwargs) as [v|] eqn:Hname.
    + destruct Hin as [->|Hin]; [congruence | now apply IH].
    + now exists name.
Qed.

Lemma format_missing (template : string) (kwargs : row) (p : string) :
  In p (placeholders template) ->
  getitem p kwargs = None ->
  exists missing : string, format template kwargs = Raise (KeyError missing).
Proof.
  unfold placeholders, format. destruct (scan InText template) as [ps err]. simpl.
  intros Hin Hp.
  destruct (render_missing kwargs p ps EmptyString Hin Hp) as [missing ->].
  now exists missing.
Qed.

Lemma format_response_missing (template : string) (rows : list row) (first : row)
                              (p : string) :
  In p (placeholders template) ->
  p <> "result" ->
  getitem p first = None ->
  exists e : exn, format_response template rows first = Raise e.
Proof.
  intros Hin Hne Hp. unfold format_response.
  destruct (has_key "result" first); [now eexists|].
  destruct (format_missing template (("result", VStr (render_rows rows)) :: first) p Hin)
    as [missing ->]; [|now eexists].
  cbn [getitem]. destruct (String.eqb_spec "result" p) as [E|_]; [now subst | exact Hp].
Qed.

(** C8 (as the code has it). When the template of the matched catalogue
    entry names a placeholder that is neither [result] nor a column of the
    first row, formatting raises; the router's handler catches it, logs it
    and returns the fixed apology.  The generic row rendering is not
    returned. *)
Theorem missing_placeholder_apology
    (G : globals) (a : agent) (u : string) (t : trace)
    (before : list (string * details)) (question : string) (d : details)
    (after : list (string * details)) (first : row) (more : list row) (p : string) :
  is_query_related u = true ->
  agent_01 G = Some a ->
  guide G = (before ++ (question, d) :: after)%list ->
  (forall q' d', In (q', d') before -> ~ occurs_in (lower q') (lower u)) ->
  occurs_in (lower question) (lower u) ->
  bigquery X t (query d) = Ret (first :: more) ->
  In p (placeholders (response_template d)) ->
  p <> "result" ->
  getitem p first = None ->
  exists e : exn,
    categorize_task X G u t
    = (Ret apology,
       (t ++ [Query (query d);
              LogError ("Error in Agent 01 task categorization: " ++ str_exn e)])%list).
Proof.
  intros Hq Ha Hg Hnone Hocc Hrows Hin Hne Hp.
  destruct (format_response_missing (response_template d) (first :: more) first p Hin Hne Hp)
    as [e He].
  exists e. rewrite (categorize_task_data X G a u Hq Ha), Hg.
  rewrite (match_guide_hit X a u before question d after Hnone Hocc).
  rewrite (try_except_apology _ t (t ++ [Query (query d)])%list e).
  - now rewrite <- app_assoc.
  - rewrite (answer_from_guide_rows d t first more Hrows). now rewrite He.
Qed.

(** C10. Without a key the configuration leaves [agent_01] unset, and
    then every data question, whatever the catalogue holds, gets the fixed
    [agent_01_missing] text: the trace is returned as it was, so no
    warehouse query (and no model call) is made. *)
Theorem no_credential_no_query
    (inp : run_input) (agents : option agent * option agent * option agent)
    (t0 t1 : trace) (items : list (string * details)) (u : string) (t : trace) :
  truthy (gemini_api_key inp) = false ->
  configure_gemini inp t0 = (Ret agents, t1) ->
  is_query_related u = true ->
  categorize_task X
    {| agent_01 := snd (fst agents); agent_02 := snd agents; guide := items |} u t
  = (Ret agent_01_missing, t).
Proof.
  intros Hkey Hconf Hq. unfold configure_gemini in Hconf. rewrite Hkey in Hconf.
  unfold bind, emit, ret in Hconf. injection Hconf as <- _.
  unfold categorize_task. rewrite Hq. reflexivity.
Qed.

End Answers.

(** ** The session *)

Lemma summary_turns_app (h added : list (string * string)) :
  summary_turns (h ++ added) = (summary_turns h ++ summary_turns added)%list.
Proof. apply filter_app. Qed.

Lemma continues_refl (w : world) : continues w w.
Proof. split; [exists []; now rewrite app_nil_r | trivial]. Qed.

Lemma continues_trans (w1 w2 w3 : world) :
  continues w1 w2 -> continues w2 w3 -> continues w1 w3.
Proof.
  intros [[a1 H1] I1] [[a2 H2] I2]. split.
  - exists (a1 ++ a2)%list. now rewrite H2, H1, app_assoc.
  - auto.
Qed.

Lemma quiet_continues {A : Type} (m : P A) (w : world) :
  quiet m -> continues w (snd (m w)).
Proof.
  intros Hq. destruct (Hq w) as [added [Hh [Hs Hf]]]. split.
  - now exists added.
  - intros [H0 H1]. unfold summary_once.
    rewrite Hh, Hf, summary_turns_app, Hs, app_nil_r. now split.
Qed.

Lemma continues_bind {A B : Type} (m : P A) (k : A -> P B) (w : world) :
  continues w (snd (m w)) ->
  (forall a, continues (snd (m w)) (snd (k a (snd (m w))))) ->
  continues w (snd (bind m k w)).
Proof.
  intros Hm Hk. unfold bind. destruct (m w) as [[a|e] w1]; simpl in *.
  - eapply continues_trans; [exact Hm | apply Hk].
  - exact Hm.
Qed.

Lemma quiet_ret {A : Type} (a : A) : quiet (ret a : P A).
Proof. intros w. exists []. simpl. now rewrite app_nil_r. Qed.

Lemma quiet_bind {A B : Type} (m : P A) (k : A -> P B) :
  quiet m -> (forall a, quiet (k a)) -> quiet (bind m k).
Proof.
  intros Hm Hk w. unfold bind.
  destruct (Hm w) as [a1 [H1 [S1 F1]]].
  destruct (m w) as [[a|e] w1]; simpl in *.
  - destruct (Hk a w1) as [a2 [H2 [S2 F2]]].
    exists (a1 ++ a2)%list. rewrite H2, H1, app_assoc, summary_turns_app, S1, S2, F2, F1.
    now repeat split.
  - now exists a1.
Qed.

Lemma quiet_run {A : Type} (m : M A) : quiet (run m).
Proof.
  intros w. exists []. unfold run. destruct (m (effects w)) as [r t]. simpl.
  now rewrite app_nil_r.
Qed.

Lemma quiet_read_session : quiet read_session.
Proof. intros w. exists []. simpl. now rewrite app_nil_r. Qed.

Lemma quiet_history_append (turn : string * string) :
  is_summary_turn turn = false -> quiet (history_append turn).
Proof.
  intros H w. exists [turn]. simpl. unfold summary_turns. simpl. now rewrite H.
Qed.

Lemma quiet_for_each {A : Type} (xs : list A) (body : A -> P unit) :
  (forall x, quiet (body x)) -> quiet (for_each xs body).
Proof.
  intros Hb. induction xs as [|x xs IH]; simpl.
  - apply quiet_ret.
  - apply quiet_bind; [apply Hb | intros _; exact IH].
Qed.

Lemma no_query_app (a b : trace) :
  no_query a -> no_query b -> no_query (a ++ b)%list.
Proof. unfold no_query. intros Ha Hb. now rewrite forallb_app, Ha, Hb. Qed.

Lemma query_free_emit (ev : event) : is_query ev = false -> query_free (emit ev).
Proof.
  intros H t. exists [ev]. split; [reflexivity|]. unfold no_query. simpl. now rewrite H.
Qed.

Lemma page_query_free_ret {A : Type} (a : A) : page_query_free (ret a : P A).
Proof. intros w. exists []. simpl. now rewrite app_nil_r. Qed.

Lemma page_query_free_bind {A B : Type} (m : P A) (k : A -> P B) :
  page_query_free m -> (forall a, page_query_free (k a)) -> page_query_free (bind m k).
Proof.
  intros Hm Hk w. unfold bind.
  destruct (Hm w) as [a1 [H1 N1]].
  destruct (m w) as [[a|e] w1]; simpl in *.
  - destruct (Hk a w1) as [a2 [H2 N2]].
    exists (a1 ++ a2)%list. rewrite H2, H1, app_assoc. split; [reflexivity|].
    now apply no_query_app.
  - now exists a1.
Qed.

Lemma page_query_free_run {A : Type} (m : M A) : query_free m -> page_query_free (run m).
Proof.
  intros Hm w. destruct (Hm (effects w)) as [added [H N]]. exists added.
  unfold run. destruct (m (effects w)) as [r t]. simpl in *. now split.
Qed.

Lemma page_query_free_history_append (turn : string * string) :
  page_query_free (history_append turn).
Proof. intros w. exists []. simpl. now rewrite app_nil_r. Qed.

Lemma page_query_free_for_each {A : Type} (xs : list A) (body : A -> P unit) :
  (forall x, page_query_free (body x)) -> page_query_free (for_each xs body).
Proof.
  intros Hb. induction xs as [|x xs IH]; simpl.
  - apply page_query_free_ret.
  - apply page_query_free_bind; [apply Hb | intros _; exact IH].
Qed.

Section Session.

Context {SM : StrMethods}.
Variable X : services.

Lemma quiet_replay_history : quiet replay_history.
Proof.
  unfold replay_history. apply quiet_bind; [apply quiet_read_session|].
  intros current. apply quiet_for_each. intros turn. apply quiet_run.
Qed.

Lemma quiet_answer_user (G : globals) (u : string) : quiet (answer_user X G u).
Proof.
  unfold answer_user.
  apply quiet_bind; [now apply quiet_history_append | intros _].
  apply quiet_bind; [apply quiet_run | intros _].
  apply quiet_bind; [apply quiet_run | intros response].
  apply quiet_bind; [|intros _; apply quiet_run].
  apply quiet_history_append. now destruct (is_query_related u).
Qed.

(** The summary query's failures are absorbed inside the function. *)
Lemma display_sales_summary_returns (t : trace) :
  exists summary : option string, fst (display_sales_summary X t) = Ret summary.
Proof.
  unfold display_sales_summary, try_except, bind, client_query, lift.
  destruct (bigquery X t summary_query) as [rows|e]; [|now eexists].
  destruct (map_result summary_line rows) as [lines|e]; now eexists.
Qed.

Lemma show_sales_summary_session (w : world) :
  exists text : string,
    summary_text text
    /\ session (snd (show_sales_summary X w))
       = {| chat_history := (chat_history (session w) ++ [("assistant", text)])%list;
            sales_summary_displayed := true |}.
Proof.
  unfold show_sales_summary, bind at 1, run at 1.
  destruct (display_sales_summary_returns (effects w)) as [summary Hs].
  destruct (display_sales_summary X (effects w)) as [r t]. simpl in Hs. subst r.
  destruct summary as [[|c rest]|].
  - exists no_summary_message. split; [now left | reflexivity].
  - exists (summary_heading ++ String c rest). split; [right; now eexists | reflexivity].
  - exists no_summary_message. split; [now left | reflexivity].
Qed.

Lemma show_sales_summary_continues (w : world) :
  sales_summary_displayed (session w) = false ->
  continues w (snd (show_sales_summary X w)).
Proof.
  intros Hflag. destruct (show_sales_summary_session w) as [text [Htext Hs]]. split.
  - exists [("assistant", text)]. now rewrite Hs.
  - intros [Hcount Hall]. unfold summary_once. rewrite Hs. simpl.
    rewrite Hflag in Hcount. rewrite summary_turns_app.
    apply length_zero_iff_nil in Hcount. rewrite Hcount. simpl.
    split; [reflexivity | now constructor].
Qed.

Lemma display_chat_page_continues (G : globals) (key : string) (ci : option string)
                                  (w : world) :
  continues w (snd (display_chat_page X G key ci w)).
Proof.
  unfold display_chat_page, bind at 1, read_session.
  apply continues_bind.
  - destruct (truthy key); simpl; [|apply continues_refl].
    destruct (sales_summary_displayed (session w)) eqn:Hflag; simpl.
    + apply continues_refl.
    + now apply show_sales_summary_continues.
  - intros _. apply quiet_continues.
    apply quiet_bind; [apply quiet_replay_history | intros _].
    destruct ci as [[|c rest]|]; try apply quiet_ret. apply quiet_answer_user.
Qed.

Lemma script_continues (inp : run_input) (w : world) :
  continues w (snd (script X inp w)).
Proof.
  unfold script. apply continues_bind.
  - apply quiet_continues, quiet_run.
  - intros agents. destruct (bigquery_setup inp) as [[]|e].
    + destruct (page inp).
      * apply display_chat_page_continues.
      * apply continues_refl.
    + apply quiet_continues. apply quiet_bind; [apply quiet_run | intros _; apply quiet_run].
Qed.

Lemma session_continues (inputs : list run_input) (w : world) :
  continues w (fold_left (fun w inp => snd (script X inp w)) inputs w).
Proof.
  revert w. induction inputs as [|inp inputs IH]; intros w; simpl.
  - apply continues_refl.
  - eapply continues_trans; [apply script_continues | apply IH].
Qed.

(** C7. Whatever the user does and however the services behave, the
    history of a session holds at most one summary turn (the daily sales
    summary or the message that stands for it): exactly one once the
    summary block has run, none before; and a turn of role [assistant] is
    always such a summary turn. *)
Theorem summary_at_most_once (inputs : list run_input) :
  let s := session (run_session X inputs) in
  (List.length (summary_turns (chat_history s)) <= 1)%nat
  /\ List.length (summary_turns (chat_history s))
     = (if sales_summary_displayed s then 1 else 0)%nat
  /\ Forall (fun turn => summary_text (snd turn)) (summary_turns (chat_history s)).
Proof.
  unfold run_session.
  destruct (session_continues inputs initial_world) as [_ Hinv].
  destruct Hinv as [Hcount Hall]; [split; [reflexivity | constructor]|].
  repeat split; try assumption.
  rewrite Hcount. destruct (sales_summary_displayed _); lia.
Qed.

(** C9. The history only grows: one run of the script leaves the turns
    it found in place and adds after them, and so does any continuation of
    a session. *)
Theorem chat_history_append_only :
  (forall (inp : run_input) (w : world),
      exists added : list (string * string),
        chat_history (session (snd (script X inp w)))
        = (chat_history (session w) ++ added)%list)
  /\ (forall inputs more : list run_input,
        exists added : list (string * string),
          chat_history (session (run_session X (inputs ++ more)))
          = (chat_history (session (run_session X inputs)) ++ added)%list).
Proof.
  split.
  - intros inp w. apply script_continues.
  - intros inputs more. unfold run_session. rewrite fold_left_app.
    apply session_continues.
Qed.

Lemma show_sales_summary_empty (w : world) :
  bigquery X (effects w) summary_query = Ret [] ->
  show_sales_summary X w
  = (Ret tt,
     {| session :=
          {| chat_history :=
               (chat_history (session w) ++ [("assistant", no_summary_message)])%list;
             sales_summary_displayed := true |};
        effects :=
          (effects w ++ [Query summary_query;
                         ChatMessage "assistant" no_summary_message])%list |}).
Proof.
  intros H.
  unfold show_sales_summary, bind, run, display_sales_summary, try_except, bind,
    client_query.
  rewrite H. simpl. now rewrite <- app_assoc.
Qed.

(** C6 (as the code has it). A query of the router that returns no row,
    whether it came from the catalogue or from the model, is answered with
    [no_results]; the daily-summary query that returns no row is answered
    with [no_summary_message]. *)
Theorem zero_rows_messages (G : globals) (a : agent) (u : string) (t : trace) (w : world) :
  is_query_related u = true ->
  agent_01 G = Some a ->
  (forall before question d after,
      guide G = (before ++ (question, d) :: after)%list ->
      (forall q' d', In (q', d') before -> ~ occurs_in (lower q') (lower u)) ->
      occurs_in (lower question) (lower u) ->
      bigquery X t (query d) = Ret [] ->
      categorize_task X G u t = (Ret no_results, (t ++ [Query (query d)])%list))
  /\ (forall sql_text,
        (forall q' d', In (q', d') (guide G) -> ~ occurs_in (lower q') (lower u)) ->
        gemini X t a (dynamic_query_prompt u) = Ret sql_text ->
        bigquery X (t ++ [GenerateContent (dynamic_query_prompt u)])%list (strip sql_text)
        = Ret [] ->
        categorize_task X G u t
        = (Ret no_results,
           (t ++ [GenerateContent (dynamic_query_prompt u); Query (strip sql_text)])%list))
  /\ (bigquery X (effects w) summary_query = Ret [] ->
      show_sales_summary X w
      = (Ret tt,
         {| session :=
              {| chat_history :=
                   (chat_history (session w) ++ [("assistant", no_summary_message)])%list;
                 sales_summary_displayed := true |};
            effects :=
              (effects w ++ [Query summary_query;
                             ChatMessage "assistant" no_summary_message])%list |})).
Proof.
  intros Hq Ha. rewrite (categorize_task_data X G a u Hq Ha). split; [|split].
  - intros before question d after Hg Hnone Hocc Hrows.
    rewrite Hg, (match_guide_hit X a u before question d after Hnone Hocc).
    apply try_except_ret. now apply answer_from_guide_empty.
  - intros sql_text Hnone Hgen Hrows.
    rewrite (match_guide_miss X a u (guide G) Hnone).
    apply try_except_ret. now apply answer_dynamically_empty.
  - apply show_sales_summary_empty.
Qed.

Lemma categorize_task_unconfigured_query_free (items : list (string * details)) (u : string) :
  query_free (categorize_task X (unconfigured items) u).
Proof.
  intros t. exists []. rewrite app_nil_r. split; [|reflexivity].
  unfold categorize_task, handle_general_questions. simpl.
  now destruct (is_query_related u).
Qed.

(** Without a key a whole run of the script makes no warehouse query:
    the summary block is skipped and the router stops at its guard. *)
Lemma script_without_key_query_free (inp : run_input) :
  truthy (gemini_api_key inp) = false ->
  page_query_free (script X inp).
Proof.
  intros Hkey w. unfold script, bind at 1, run at 1, configure_gemini.
  rewrite Hkey. cbn [bind emit ret fst snd].
  set (w1 := {| session := session w;
                effects := (effects w
                            ++ [Sidebar "warning" "Please provide a valid Gemini API Key."])%list |}).
  assert (Hrest : forall m : P unit, page_query_free m ->
            exists added, effects (snd (m w1)) = (effects w ++ added)%list /\ no_query added).
  { intros m Hm. destruct (Hm w1) as [added [H N]].
    exists ([Sidebar "warning" "Please provide a valid Gemini API Key."] ++ added)%list.
    rewrite H. unfold w1. cbn [effects]. rewrite <- app_assoc. split; [reflexivity|].
    now apply no_query_app. }
  apply Hrest.
  destruct (bigquery_setup inp) as [[]|e].
  - destruct (page inp); [|apply page_query_free_ret].
    unfold display_chat_page. rewrite Hkey. simpl andb.
    apply page_query_free_bind; [intros w'; exists []; simpl; now rewrite app_nil_r | intros _].
    apply page_query_free_bind; [apply page_query_free_ret | intros _].
    apply page_query_free_bind.
    + unfold replay_history.
      apply page_query_free_bind; [intros w'; exists []; simpl; now rewrite app_nil_r|].
      intros current. apply page_query_free_for_each. intros turn.
      now apply page_query_free_run, query_free_emit.
    + intros _. destruct (chat_input inp) as [[|c rest]|]; try apply page_query_free_ret.
      unfold answer_user.
      apply page_query_free_bind; [apply page_query_free_history_append | intros _].
      apply page_query_free_bind; [now apply page_query_free_run, query_free_emit | intros _].
      apply page_query_free_bind;
        [apply page_query_free_run, (categorize_task_unconfigured_query_free query_guide)
        | intros response].
      apply page_query_free_bind; [apply page_query_free_history_append | intros _].
      now apply page_query_free_run, query_free_emit.
  - apply page_query_free_bind; [|intros _]; now apply page_query_free_run, query_free_emit.
Qed.

End Session.

(** ** Scenarios on ASCII text *)

Ltac none_occurs :=
  let q := fresh "q" in
  let d := fresh "d" in
  let Hin := fresh "Hin" in
  let E := fresh "E" in
  intros q d Hin; apply contains_false; simpl in Hin;
  repeat (destruct Hin as [E|Hin]; [injection E as <- <-; reflexivity|]);
  contradiction.

Ltac no_keyword :=
  let k := fresh "k" in
  let Hin := fresh "Hin" in
  intros k Hin; apply contains_false; simpl in Hin;
  repeat (destruct Hin as [<-|Hin]; [reflexivity|]);
  contradiction.

Lemma february_format :
  format_response february_template [silom_row] silom_row = Ret february_answer.
Proof. reflexivity. Qed.

(** C5 (as the code has it). With a model credential configured and the
    February entry the first catalogue entry whose question occurs in the
    text, the scenario's input and row give the scenario's sentence. *)
Theorem february_scenario
    (X : services) (G : globals) (a : agent) (t : trace) (sql : string)
    (before after : list (string * details)) :
  agent_01 G = Some a ->
  guide G
  = (before
     ++ (february_question, {| query := sql; response_template := february_template |})
     :: after)%list ->
  (forall q' d', In (q', d') before -> ~ occurs_in (lower q') (lower february_input)) ->
  bigquery X t sql = Ret [silom_row] ->
  categorize_task X G february_input t = (Ret february_answer, (t ++ [Query sql])%list).
Proof.
  intros Ha Hg Hnone Hrows.
  assert (Hq : is_query_related february_input = true) by reflexivity.
  rewrite (categorize_task_data X G a february_input Hq Ha), Hg.
  rewrite (match_guide_hit X a february_input before february_question _ after Hnone).
  - apply try_except_ret.
    rewrite (answer_from_guide_rows X
               {| query := sql; response_template := february_template |}
               t silom_row [] Hrows).
    simpl response_template.
    now rewrite february_format.
  - now apply contains_spec.
Qed.

Lemma february_scenario_witness :
  categorize_task (fixed_services (Ret [silom_row]) (Ret EmptyString))
                  (configured query_guide_initial) february_input []
  = (Ret february_answer,
     [Query (query (snd (hd (EmptyString, {| query := EmptyString;
                                             response_template := EmptyString |})
                            query_guide_initial)))]).
Proof.
  apply (february_scenario (fixed_services (Ret [silom_row]) (Ret EmptyString))
                           (configured query_guide_initial) gemini_pro [] _ [] []).
  - reflexivity.
  - reflexivity.
  - intros q' d' [].
  - reflexivity.
Defined.

Lemma february_unconfigured_counterexample :
  categorize_task (fixed_services (Ret [silom_row]) (Ret EmptyString))
                  (unconfigured query_guide_initial) february_input []
  = (Ret agent_01_missing, [])
  /\ agent_01_missing <> february_answer.
Proof. split; [reflexivity | discriminate]. Qed.

(** The catalogue in force when the router runs is the one bound at line
    234, which has no February entry: the scenario's text then takes the
    dynamic path. *)
Lemma february_question_overwritten (X : services) (a : agent) :
  match_guide X a february_input query_guide = answer_dynamically X a february_input.
Proof. apply match_guide_miss. none_occurs. Qed.

(** C3. The failing run: a general question, [agent_02] configured, the
    model call raising.  The handler logs the failure and then evaluates
    [random.choice], whose module was never imported; the [NameError]
    leaves [categorize_task] and ends the script run. *)
Theorem general_path_exception_escapes :
  categorize_task (fixed_services (Ret []) (Raise (ServiceError "model unavailable")))
                  (configured query_guide) "hello" []
  = (Raise (NameError "random"),
     [GenerateContent (general_prompt "hello");
      LogError "Error in Agent 02 response generation: model unavailable"])
  /\ fst (script (fixed_services (Ret []) (Raise (ServiceError "model unavailable")))
                 (chat_turn "key" (Some "hello")) initial_world)
     = Raise (NameError "random").
Proof. split; reflexivity. Qed.

(** C4. The failing runs of the general-answer path: with a model that
    raises, and with a model that answers with blanks only, the function
    raises [NameError] where a member of [fallback_responses] was to be
    returned, because [random] is not among the names the module binds. *)
Theorem fallback_never_returned :
  fst (handle_general_questions
         (fixed_services (Ret []) (Raise (ServiceError "model unavailable")))
         (configured query_guide) "What are your opening hours?" [])
  = Raise (NameError "random")
  /\ fst (handle_general_questions
            (fixed_services (Ret []) (Ret "   "))
            (configured query_guide) "What are your opening hours?" [])
     = Raise (NameError "random")
  /\ existsb (String.eqb "random") module_globals = false.
Proof. repeat split; reflexivity. Qed.

Lemma summary_zero_rows_counterexample :
  let w := snd (display_chat_page (fixed_services (Ret []) (Ret "SELECT 1"))
                                  (configured query_guide) "key" None initial_world) in
  chat_history (session w) = [("assistant", no_summary_message)]
  /\ In (Query summary_query) (effects w)
  /\ In (ChatMessage "assistant" no_summary_message) (effects w)
  /\ no_summary_message <> no_results.
Proof.
  repeat split.
  - now left.
  - right. now left.
  - discriminate.
Qed.

Lemma missing_placeholder_counterexample :
  fst (categorize_task (fixed_services (Ret [short_row]) (Ret EmptyString))
                       (configured query_guide) furthest_question [])
  = Ret apology
  /\ apology <> render_rows [short_row].
Proof. split; [reflexivity | discriminate]. Qed.

Lemma catalog_lookup_first_match_witness :
  match_guide (fixed_services (Ret []) (Ret EmptyString)) gemini_pro
              furthest_question query_guide
  = answer_from_guide (fixed_services (Ret []) (Ret EmptyString)) furthest_details
  /\ match_guide (fixed_services (Ret []) (Ret EmptyString)) gemini_pro
                 tea_question query_guide
     = answer_dynamically (fixed_services (Ret []) (Ret EmptyString)) gemini_pro
                          tea_question.
Proof.
  split.
  - apply (proj1 (proj2 (catalog_lookup_first_match
                           (fixed_services (Ret []) (Ret EmptyString))
                           (configured query_guide) gemini_pro furthest_question))
                 (firstn 7 query_guide) furthest_question furthest_details []).
    + reflexivity.
    + none_occurs.
    + apply contains_spec. reflexivity.
  - apply (proj2 (proj2 (catalog_lookup_first_match
                           (fixed_services (Ret []) (Ret EmptyString))
                           (configured query_guide) gemini_pro tea_question))).
    none_occurs.
Defined.

Lemma no_keyword_general_path_witness :
  categorize_task (fixed_services (Ret []) (Ret "We open at 11:00 AM."))
                  (configured query_guide) opening_hours_question []
  = handle_general_questions (fixed_services (Ret []) (Ret "We open at 11:00 AM."))
                             (configured query_guide) opening_hours_question []
  /\ exists added : trace,
       snd (categorize_task (fixed_services (Ret []) (Ret "We open at 11:00 AM."))
                            (configured query_guide) opening_hours_question [])
       = ([] ++ added)%list
       /\ forallb (fun ev => negb (is_query ev)) added = true.
Proof.
  apply (no_keyword_general_path (fixed_services (Ret []) (Ret "We open at 11:00 AM."))
                                 (configured query_guide) opening_hours_question []).
  no_keyword.
Defined.

Lemma zero_rows_messages_witness :
  categorize_task (fixed_services (Ret []) (Ret " SELECT 1 "))
                  (configured query_guide) furthest_question []
  = (Ret no_results, [Query (query furthest_details)])
  /\ categorize_task (fixed_services (Ret []) (Ret " SELECT 1 "))
                     (configured query_guide) tea_question []
     = (Ret no_results,
        [GenerateContent (dynamic_query_prompt tea_question); Query "SELECT 1"])
  /\ show_sales_summary (fixed_services (Ret []) (Ret " SELECT 1 ")) initial_world
     = (Ret tt,
        {| session :=
             {| chat_history := [("assistant", no_summary_message)];
                sales_summary_displayed := true |};
           effects := [Query summary_query;
                       ChatMessage "assistant" no_summary_message] |}).
Proof.
  destruct (zero_rows_messages (fixed_services (Ret []) (Ret " SELECT 1 "))
              (configured query_guide) gemini_pro furthest_question [] initial_world)
    as [Hcatalog [_ Hsummary]]; [reflexivity | reflexivity |].
  destruct (zero_rows_messages (fixed_services (Ret []) (Ret " SELECT 1 "))
              (configured query_guide) gemini_pro tea_question [] initial_world)
    as [_ [Hdynamic _]]; [reflexivity | reflexivity |].
  split; [|split].
  - apply (Hcatalog (firstn 7 query_guide) furthest_question furthest_details []).
    + reflexivity.
    + none_occurs.
    + apply contains_spec. reflexivity.
    + reflexivity.
  - apply (Hdynamic " SELECT 1 ").
    + none_occurs.
    + reflexivity.
    + reflexivity.
  - apply Hsummary. reflexivity.
Defined.

Lemma missing_placeholder_apology_witness :
  exists e : exn,
    categorize_task (fixed_services (Ret [short_row]) (Ret EmptyString))
                    (configured query_guide) furthest_question []
    = (Ret apology,
       [Query (query furthest_details);
        LogError ("Error in Agent 01 task categorization: " ++ str_exn e)]).
Proof.
  apply (missing_placeholder_apology
           (fixed_services (Ret [short_row]) (Ret EmptyString))
           (configured query_guide) gemini_pro furthest_question []
           (firstn 7 query_guide) furthest_question furthest_details []
           short_row [] "Diff").
  - reflexivity.
  - reflexivity.
  - reflexivity.
  - none_occurs.
  - apply contains_spec. reflexivity.
  - reflexivity.
  - vm_compute. do 4 right. left. reflexivity.
  - discriminate.
  - reflexivity.
Defined.

Lemma no_credential_no_query_witness :
  categorize_task (fixed_services (Ret [silom_row]) (Ret EmptyString))
                  (unconfigured query_guide) furthest_question []
  = (Ret agent_01_missing, []).
Proof.
  apply (no_credential_no_query
           (fixed_services (Ret [silom_row]) (Ret EmptyString))
           (chat_turn EmptyString (Some furthest_question))
           (None, None, None)
           [] [Sidebar "warning" "Please provide a valid Gemini API Key."]
           query_guide furthest_question []).
  - reflexivity.
  - reflexivity.
  - reflexivity.
Defined.

(** * Further properties of the router *)

Section RouterTraces.

Context {SM : StrMethods}.
Variable X : services.

Lemma answer_from_guide_trace (d : details) (t : trace) :
  snd (answer_from_guide X d t) = (t ++ [Query (query d)])%list.
Proof.
  unfold answer_from_guide, bind, client_query.
  destruct (bigquery X t (query d)) as [[|first more]|e]; reflexivity.
Qed.

Lemma answer_dynamically_answered (a : agent) (u s : string) (t : trace) :
  gemini X t a (dynamic_query_prompt u) = Ret s ->
  snd (answer_dynamically X a u t)
  = (t ++ [GenerateContent (dynamic_query_prompt u); Query (strip s)])%list.
Proof.
  intros Hg. unfold answer_dynamically, bind, generate_content, client_query.
  rewrite Hg.
  destruct (bigquery X _ (strip s)) as [[|first more]|e]; simpl;
    now rewrite <- app_assoc.
Qed.

Lemma answer_dynamically_refused (a : agent) (u : string) (e : exn) (t : trace) :
  gemini X t a (dynamic_query_prompt u) = Raise e ->
  answer_dynamically X a u t
  = (Raise e, (t ++ [GenerateContent (dynamic_query_prompt u)])%list).
Proof.
  intros Hg. unfold answer_dynamically, bind, generate_content. now rewrite Hg.
Qed.

(** What one pass of the loop and the code after it can leave in the
    trace. *)
Lemma match_guide_trace (a : agent) (u : string) (items : list (string * details))
                        (t : trace) :
  exists added : trace,
    snd (match_guide X a u items t) = (t ++ added)%list
    /\ ((exists sql, added = [Query sql])
        \/ (exists prompt, added = [GenerateContent prompt])
        \/ (exists prompt sql, added = [GenerateContent prompt; Query sql])).
Proof.
  induction items as [|[q d] items IH]; simpl.
  - destruct (gemini X t a (dynamic_query_prompt u)) as [s|e] eqn:Hg.
    + eexists. split; [apply (answer_dynamically_answered a u s t Hg)|].
      right. right. now do 2 eexists.
    + rewrite (answer_dynamically_refused a u e t Hg). eexists. split; [reflexivity|].
      right. left. now eexists.
  - destruct (contains (lower q) (lower u)); [|exact IH].
    eexists. split; [apply answer_from_guide_trace|]. left. now eexists.
Qed.

Lemma try_except_trace (body : M string) (t : trace) :
  (exists reply, try_except body log_and_apologise t = (Ret reply, snd (body t))
                 /\ fst (body t) = Ret reply)
  \/ (exists e, try_except body log_and_apologise t
                = (Ret apology,
                   (snd (body t)
                    ++ [LogError ("Error in Agent 01 task categorization: " ++ str_exn e)])%list)
                /\ fst (body t) = Raise e).
Proof.
  unfold try_except. destruct (body t) as [[reply|e] t']; simpl.
  - left. now exists reply.
  - right. now exists e.
Qed.

Lemma categorize_task_events (G : globals) (u : string) (t : trace) :
  exists added : trace,
    snd (categorize_task X G u t) = (t ++ added)%list
    /\ (count_events is_query added <= 1)%nat
    /\ (count_events is_generate added <= 1)%nat
    /\ (count_events is_log added <= 1)%nat.
Proof.
  unfold categorize_task. destruct (is_query_related u).
  - destruct (agent_01 G) as [a|].
    + destruct (match_guide_trace a u (guide G) t) as [added [Ht Hshape]].
      destruct (try_except_trace (match_guide X a u (guide G)) t)
        as [[reply [-> _]] | [e [-> _]]]; simpl; rewrite Ht.
      * exists added. split; [reflexivity|].
        destruct Hshape as [[sql ->] | [[prompt ->] | [prompt [sql ->]]]];
          unfold count_events; simpl; lia.
      * eexists. split; [now rewrite <- app_assoc|].
        destruct Hshape as [[sql ->] | [[prompt ->] | [prompt [sql ->]]]];
          unfold count_events; simpl; lia.
    + exists []. simpl. rewrite app_nil_r. unfold count_events. simpl. repeat split; lia.
  - destruct (agent_02 G) as [a|] eqn:Ha.
    + destruct (gemini X t a (general_prompt u)) as [s|e] eqn:Hg.
      * destruct (truthy (strip s)) eqn:Hs.
        -- rewrite (handle_general_questions_answer X G a u s t Ha Hg Hs).
           eexists. split; [reflexivity|]. unfold count_events. simpl. lia.
        -- rewrite (handle_general_questions_blank X G a u s t Ha Hg Hs).
           eexists. split; [reflexivity|]. unfold count_events. simpl. lia.
      * rewrite (handle_general_questions_failure X G a u e t Ha Hg).
        eexists. split; [reflexivity|]. unfold count_events. simpl. lia.
    + rewrite (handle_general_questions_unconfigured X G u t Ha).
      exists []. simpl. rewrite app_nil_r. unfold count_events. simpl. repeat split; lia.
Qed.

(** X1. One call of the router makes at most one warehouse query and at
    most one model call, and logs at most one error, whatever the
    catalogue, the text and the behaviour of the services. *)
Theorem router_call_budget (G : globals) (u : string) (t : trace) :
  exists added : trace,
    snd (categorize_task X G u t) = (t ++ added)%list
    /\ (count_events is_query added <= 1)%nat
    /\ (count_events is_generate added <= 1)%nat
    /\ (count_events is_log added <= 1)%nat.
Proof. apply categorize_task_events. Qed.

(** X2. A question answered from the catalogue never reaches the model:
    the only service call is the entry's own query, also when formatting
    or the query fails and the apology is returned. *)
Theorem catalogue_answer_needs_no_model
    (G : globals) (a : agent) (u : string) (t : trace)
    (before : list (string * details)) (question : string) (d : details)
    (after : list (string * details)) :
  is_query_related u = true ->
  agent_01 G = Some a ->
  guide G = (before ++ (question, d) :: after)%list ->
  (forall q' d', In (q', d') before -> ~ occurs_in (lower q') (lower u)) ->
  occurs_in (lower question) (lower u) ->
  exists (reply : string) (logged : trace),
    categorize_task X G u t = (Ret reply, (t ++ Query (query d) :: logged)%list)
    /\ count_events is_generate logged = 0%nat
    /\ count_events is_query logged = 0%nat.
Proof.
  intros Hq Ha Hg Hnone Hocc.
  rewrite (categorize_task_data X G a u Hq Ha), Hg.
  rewrite (match_guide_hit X a u before question d after Hnone Hocc).
  destruct (try_except_trace (answer_from_guide X d) t)
    as [[reply [-> _]] | [e [-> _]]]; rewrite answer_from_guide_trace.
  - exists reply, []. now repeat split.
  - exists apology. eexists. split; [now rewrite <- app_assoc|]. now split.
Qed.

(** X3. When no catalogue entry matches, the text the model returns is
    sent to the warehouse as it is, only stripped: whatever the model
    wrote, the next event is the query with exactly that text.  When the
    model call fails instead, no query is run and the apology is
    returned. *)
Theorem dynamic_query_runs_model_text_verbatim
    (G : globals) (a : agent) (u : string) (t : trace) :
  is_query_related u = true ->
  agent_01 G = Some a ->
  (forall q' d', In (q', d') (guide G) -> ~ occurs_in (lower q') (lower u)) ->
  (forall s, gemini X t a (dynamic_query_prompt u) = Ret s ->
     exists (reply : string) (logged : trace),
       categorize_task X G u t
       = (Ret reply,
          (t ++ GenerateContent (dynamic_query_prompt u) :: Query (strip s) :: logged)%list)
       /\ count_events is_query logged = 0%nat)
  /\ (forall e, gemini X t a (dynamic_query_prompt u) = Raise e ->
        categorize_task X G u t
        = (Ret apology,
           (t ++ [GenerateContent (dynamic_query_prompt u);
                  LogError ("Error in Agent 01 task categorization: " ++ str_exn e)])%list)).
Proof.
  intros Hq Ha Hnone.
  rewrite (categorize_task_data X G a u Hq Ha).
  rewrite (match_guide_miss X a u (guide G) Hnone). split.
  - intros s Hg.
    destruct (try_except_trace (answer_dynamically X a u) t)
      as [[reply [-> _]] | [e [-> _]]];
      rewrite (answer_dynamically_answered a u s t Hg).
    + exists reply, []. now split.
    + exists apology. eexists. split; [now rewrite <- app_assoc|]. reflexivity.
  - intros e Hg.
    rewrite (try_except_apology _ t _ e (answer_dynamically_refused a u e t Hg)).
    now rewrite <- app_assoc.
Qed.

(** X4. On the dynamic path a result with at least one row is answered
    with the generic rendering of all its rows: one line per row, the
    columns as [name: value] joined by commas. *)
Theorem dynamic_rows_rendered
    (G : globals) (a : agent) (u s : string) (t : trace) (first : row) (more : list row) :
  is_query_related u = true ->
  agent_01 G = Some a ->
  (forall q' d', In (q', d') (guide G) -> ~ occurs_in (lower q') (lower u)) ->
  gemini X t a (dynamic_query_prompt u) = Ret s ->
  bigquery X (t ++ [GenerateContent (dynamic_query_prompt u)])%list (strip s)
  = Ret (first :: more) ->
  fst (categorize_task X G u t)
  = Ret (join nl (map (fun r => join ", " (map (fun kv => fst kv ++ ": " ++ str_value (snd kv)) r))
                      (first :: more))).
Proof.
  intros Hq Ha Hnone Hg Hrows.
  rewrite (categorize_task_data X G a u Hq Ha).
  rewrite (match_guide_miss X a u (guide G) Hnone).
  unfold try_except, answer_dynamically, bind, generate_content, client_query.
  now rewrite Hg, Hrows.
Qed.

(** X5. A first row with a column called [result] cannot be formatted:
    the keyword is given twice, the call raises before the template is
    read, and every catalogue entry answers with the apology. *)
Theorem result_column_collision
    (G : globals) (a : agent) (u : string) (t : trace)
    (before : list (string * details)) (question : string) (d : details)
    (after : list (string * details)) (first : row) (more : list row) :
  is_query_related u = true ->
  agent_01 G = Some a ->
  guide G = (before ++ (question, d) :: after)%list ->
  (forall q' d', In (q', d') before -> ~ occurs_in (lower q') (lower u)) ->
  occurs_in (lower question) (lower u) ->
  bigquery X t (query d) = Ret (first :: more) ->
  has_key "result" first = true ->
  exists msg : string,
    categorize_task X G u t
    = (Ret apology,
       (t ++ [Query (query d);
              LogError ("Error in Agent 01 task categorization: " ++ msg)])%list).
Proof.
  intros Hq Ha Hg Hnone Hocc Hrows Hkey.
  rewrite (categorize_task_data X G a u Hq Ha), Hg.
  rewrite (match_guide_hit X a u before question d after Hnone Hocc).
  eexists.
  rewrite (try_except_apology _ t (t ++ [Query (query d)])%list
             (TypeError "str.format() got multiple values for keyword argument 'result'")).
  - now rewrite <- app_assoc.
  - rewrite (answer_from_guide_rows X d t first more Hrows).
    unfold format_response. now rewrite Hkey.
Qed.

(** X6. A data question always gets a reply, and whenever an error was
    logged on the way the reply is the apology. *)
Theorem data_question_reply (G : globals) (u : string) (t : trace) :
  is_query_related u = true ->
  exists (reply : string) (added : trace),
    categorize_task X G u t = (Ret reply, (t ++ added)%list)
    /\ (existsb is_log added = true -> reply = apology).
Proof.
  intros Hq. unfold categorize_task. rewrite Hq.
  destruct (agent_01 G) as [a|].
  - destruct (match_guide_trace a u (guide G) t) as [added [Ht Hshape]].
    destruct (try_except_trace (match_guide X a u (guide G)) t)
      as [[reply [-> _]] | [e [-> _]]]; rewrite Ht.
    + exists reply, added. split; [reflexivity|].
      destruct Hshape as [[sql ->] | [[prompt ->] | [prompt [sql ->]]]]; discriminate.
    + exists apology. eexists. split; [now rewrite <- app_assoc | reflexivity].
  - exists agent_01_missing, []. rewrite app_nil_r. split; [reflexivity | discriminate].
Qed.

(** X7. The general-answer path returns a reply in two cases only: the
    fixed text when [agent_02] is not set, and the stripped model answer
    when that answer is not blank. *)
Theorem general_reply_cases (G : globals) (u reply : string) (t : trace) :
  fst (handle_general_questions X G u t) = Ret reply
  <-> (agent_02 G = None /\ reply = agent_02_missing)
      \/ (exists a s, agent_02 G = Some a
                      /\ gemini X t a (general_prompt u) = Ret s
                      /\ truthy (strip s) = true
                      /\ reply = strip s).
Proof.
  destruct (agent_02 G) as [a|] eqn:Ha.
  - destruct (gemini X t a (general_prompt u)) as [s|e] eqn:Hg.
    + destruct (truthy (strip s)) eqn:Hs.
      * rewrite (handle_general_questions_answer X G a u s t Ha Hg Hs). simpl. split.
        -- intros H. injection H as <-. right. now exists a, s.
        -- intros [[H _] | [a' [s' [Ha' [Hg' [_ ->]]]]]]; [discriminate|].
           injection Ha' as <-. rewrite Hg in Hg'. now injection Hg' as <-.
      * rewrite (handle_general_questions_blank X G a u s t Ha Hg Hs). simpl. split.
        -- discriminate.
        -- intros [[H _] | [a' [s' [Ha' [Hg' [Hs' _]]]]]]; [discriminate|].
           injection Ha' as <-. rewrite Hg in Hg'. injection Hg' as <-. congruence.
    + rewrite (handle_general_questions_failure X G a u e t Ha Hg). simpl. split.
      * discriminate.
      * intros [[H _] | [a' [s' [Ha' [Hg' _]]]]]; [discriminate|].
        injection Ha' as <-. congruence.
  - rewrite (handle_general_questions_unconfigured X G u t Ha). simpl. split.
    + intros H. injection H as <-. now left.
    + intros [[_ ->] | [a' [s' [Ha' _]]]]; [reflexivity | discriminate].
Qed.

End RouterTraces.

(** * Further properties of the formatting step *)

Lemma string_app_assoc (a b c : string) : (a ++ b) ++ c = a ++ b ++ c.
Proof. induction a as [|x a IH]; simpl; [reflexivity | now rewrite IH]. Qed.





Lemma scan_heading (heading rest : string) :
  no_braces heading = true ->
  scan InText (heading ++ rest)
  = (let (ps, e) := scan InText rest in
     (map Lit (list_ascii_of_string heading) ++ ps, e))%list.
Proof.
  induction heading as [|c heading IH]; intros H.
  - simpl. now destruct (scan InText rest).
  - simpl in H. apply andb_prop in H as [H Hrest]. apply andb_prop in H as [Ho Hc].
    apply negb_true_iff in Ho, Hc.
    cbn [append scan]. rewrite Ho, Hc, (IH Hrest).
    now destruct (scan InText rest).
Qed.

Lemma render_literals (kwargs : row) (heading : string) (ps : list piece) (out : string) :
  render kwargs (map Lit (list_ascii_of_string heading) ++ ps)%list out
  = render kwargs ps (out ++ heading).
Proof.
  revert out. induction heading as [|c heading IH]; intros out; simpl.
  - f_equal. clear. induction out as [|x out IH]; simpl; [reflexivity | now rewrite <- IH].
  - rewrite IH. f_equal. unfold char. now rewrite string_app_assoc.
Qed.

(** X9. A template made of plain text followed by the [result]
    placeholder, given a first row without a column of that name, yields
    the text followed by the generic rendering of every row. *)
Theorem heading_then_result (heading : string) (first : row) (more : list row) :
  no_braces heading = true ->
  has_key "result" first = false ->
  format_response (heading ++ "{result}") (first :: more) first
  = Ret (heading ++ render_rows (first :: more)).
Proof.
  intros Hb Hk. unfold format_response, format. rewrite Hk.
  rewrite (scan_heading heading "{result}" Hb).
  change (scan InText "{result}") with ([Field "result"], @None exn).
  cbv iota beta. rewrite render_literals. reflexivity.
Qed.

Lemma heading_then_result_witness :
  response_template (snd (nth 0 query_guide (EmptyString, furthest_details)))
  = ("Percentage growth comparison for 2024:" ++ nl) ++ "{result}"
  /\ format_response (("Percentage growth comparison for 2024:" ++ nl) ++ "{result}")
                     [short_row; silom_row] short_row
     = Ret (("Percentage growth comparison for 2024:" ++ nl)
            ++ render_rows [short_row; silom_row]).
Proof.
  split; [reflexivity|].
  apply (heading_then_result ("Percentage growth comparison for 2024:" ++ nl)
                             short_row [silom_row]); reflexivity.
Defined.

(** * Further properties of the daily summary *)

Section Summary.

Variable X : services.

Lemma summary_line_complete (r : row) :
  has_summary_columns r = true -> summary_line r = Ret (summary_sentence r).
Proof.
  unfold has_summary_columns, has_key, summary_line, summary_sentence, subscript, column.
  destruct (getitem "Branch_ID" r); [|discriminate].
  destruct (getitem "Branch_Name" r); [|discriminate].
  destruct (getitem "Total_Daily_Sales" r); [reflexivity | discriminate].
Qed.


Lemma summary_lines_complete (rows : list row) :
  forallb has_summary_columns rows = true ->
  map_result summary_line rows = Ret (map summary_sentence rows).
Proof.
  induction rows as [|r rows IH]; simpl; [reflexivity|].
  intros H. apply andb_prop in H as [Hr Hrows].
  now rewrite (summary_line_complete r Hr), (IH Hrows).
Qed.


Lemma summary_text_nonempty (r : row) (rows : list row) :
  exists c rest, join nl (map summary_sentence (r :: rows)) = String c rest.
Proof. destruct rows; simpl; now do 2 eexists. Qed.

(** X10. When the summary query returns at least one row and every row
    has the three columns, the page shows and stores, under the heading,
    one sentence per row in the order of the result, and sets the flag. *)
Theorem summary_shown (w : world) (r : row) (rows : list row) :
  bigquery X (effects w) summary_query = Ret (r :: rows) ->
  forallb has_summary_columns (r :: rows) = true ->
  show_sales_summary X w
  = (Ret tt,
     {| session :=
          {| chat_history :=
               (chat_history (session w) ++ [("assistant", summary_of (r :: rows))])%list;
             sales_summary_displayed := true |};
        effects :=
          (effects w
           ++ [Query summary_query;
               ChatMessage "assistant" (summary_of (r :: rows))])%list |}).
Proof.
  intros Hq Hall.
  unfold show_sales_summary, bind, run, display_sales_summary, try_except, bind,
    client_query, lift, summary_of.
  rewrite Hq, (summary_lines_complete (r :: rows) Hall).
  destruct (summary_text_nonempty r rows) as [c [rest E]].
  cbn [fst snd ret effects session]. rewrite E. cbn.
  now rewrite <- app_assoc.
Qed.

(** X11. A summary query that fails is reported with [st.error], logged,
    and replaced in the chat by the no-summary message; the flag is set all
    the same, so the query is not tried again in the session. *)
Theorem summary_failure_not_retried (w : world) (e : exn) :
  bigquery X (effects w) summary_query = Raise e ->
  show_sales_summary X w
  = without_summary w [Query summary_query;
                       StError ("Error fetching sales summary: " ++ str_exn e);
                       LogError ("Error fetching sales summary: " ++ str_exn e)].
Proof.
  intros Hq.
  unfold show_sales_summary, bind, run, display_sales_summary, try_except, bind,
    client_query, st_error, logging_error, emit, without_summary.
  rewrite Hq. cbn. now rewrite <- !app_assoc.
Qed.


End Summary.

(** * Further properties of the chat page and the script *)

Lemma for_each_messages (xs : list (string * string)) (s : session_state) (t : trace) :
  for_each xs (fun turn => run (chat_message (fst turn) (snd turn)))
           {| session := s; effects := t |}
  = (Ret tt, {| session := s; effects := (t ++ messages xs)%list |}).
Proof.
  revert t. induction xs as [|x xs IH]; intros t; simpl.
  - now rewrite app_nil_r.
  - unfold bind, run, chat_message, emit. simpl. rewrite IH. now rewrite <- app_assoc.
Qed.

Lemma replay_history_exact (w : world) :
  replay_history w
  = (Ret tt,
     {| session := session w;
        effects := (effects w ++ messages (chat_history (session w)))%list |}).
Proof.
  destruct w as [s t]. unfold replay_history, bind, read_session. simpl.
  apply for_each_messages.
Qed.

(** X13. Showing the history again writes one chat message per stored
    turn, oldest first, returns normally and leaves the session state as it
    was. *)
Theorem replay_history_messages (w : world) :
  replay_history w
  = (Ret tt,
     {| session := session w;
        effects := (effects w ++ messages (chat_history (session w)))%list |}).
Proof. apply replay_history_exact. Qed.

Lemma orderly_ret {A : Type} (a : A) : orderly (ret a : P A).
Proof. intros w. split; [exists []; simpl; now rewrite app_nil_r | trivial]. Qed.

Lemma orderly_bind {A B : Type} (m : P A) (k : A -> P B) :
  orderly m -> (forall a, orderly (k a)) -> orderly (bind m k).
Proof.
  intros Hm Hk w. unfold bind.
  destruct (Hm w) as [[a1 [H1 K1]] F1].
  destruct (m w) as [[a|e] w1]; simpl in *.
  - destruct (Hk a w1) as [[a2 [H2 K2]] F2]. split.
    + exists (a1 ++ a2)%list. rewrite H2, H1, app_assoc, forallb_app, K1, K2. now split.
    + auto.
  - split; [now exists a1 | exact F1].
Qed.

Lemma orderly_run {A : Type} (m : M A) : orderly (run m).
Proof.
  intros w. unfold run. destruct (m (effects w)) as [r t]. simpl.
  split; [exists []; now rewrite app_nil_r | trivial].
Qed.

Lemma orderly_read_session : orderly read_session.
Proof. intros w. split; [exists []; simpl; now rewrite app_nil_r | trivial]. Qed.

Lemma orderly_history_append (turn : string * string) :
  known_role (fst turn) = true -> orderly (history_append turn).
Proof.
  intros H w. split; [|trivial]. exists [turn]. simpl. now rewrite H.
Qed.

Lemma orderly_mark_summary_displayed : orderly mark_summary_displayed.
Proof. intros w. split; [exists []; simpl; now rewrite app_nil_r | trivial]. Qed.

Lemma orderly_for_each {A : Type} (xs : list A) (body : A -> P unit) :
  (forall x, orderly (body x)) -> orderly (for_each xs body).
Proof.
  intros Hb. induction xs as [|x xs IH]; simpl.
  - apply orderly_ret.
  - apply orderly_bind; [apply Hb | intros _; exact IH].
Qed.

Lemma returns_ret {A : Type} (a : A) : returns (ret a : P A).
Proof. intros w. now exists a. Qed.

Lemma bind_raises {A B : Type} (m : P A) (k : A -> P B) (w : world) (e : exn) :
  fst (bind m k w) = Raise e ->
  fst (m w) = Raise e \/ exists a, fst (m w) = Ret a /\ fst (k a (snd (m w))) = Raise e.
Proof.
  unfold bind. destruct (m w) as [[a|e'] w1]; simpl; intros H.
  - right. exists a. split; [reflexivity | exact H].
  - left. now injection H as ->.
Qed.

Lemma returns_never_raises {A : Type} (m : P A) (w : world) (e : exn) :
  returns m -> fst (m w) <> Raise e.
Proof. intros Hm H. destruct (Hm w) as [a Ha]. congruence. Qed.

Section Page.

Context {SM : StrMethods}.
Variable X : services.

Lemma orderly_show_sales_summary : orderly (show_sales_summary X).
Proof.
  unfold show_sales_summary.
  apply orderly_bind; [apply orderly_run | intros summary].
  apply orderly_bind; [|intros _; apply orderly_mark_summary_displayed].
  destruct summary as [[|c rest]|];
    (apply orderly_bind; [apply orderly_run | intros _; now apply orderly_history_append]).
Qed.

Lemma orderly_replay_history : orderly replay_history.
Proof.
  unfold replay_history. apply orderly_bind; [apply orderly_read_session|].
  intros current. apply orderly_for_each. intros turn. apply orderly_run.
Qed.

Lemma orderly_answer_user (G : globals) (u : string) : orderly (answer_user X G u).
Proof.
  unfold answer_user.
  apply orderly_bind; [now apply orderly_history_append | intros _].
  apply orderly_bind; [apply orderly_run | intros _].
  apply orderly_bind; [apply orderly_run | intros response].
  apply orderly_bind; [|intros _; apply orderly_run].
  apply orderly_history_append. now destruct (is_query_related u).
Qed.

Lemma orderly_display_chat_page (G : globals) (key : string) (ci : option string) :
  orderly (display_chat_page X G key ci).
Proof.
  unfold display_chat_page.
  apply orderly_bind; [apply orderly_read_session | intros before].
  apply orderly_bind.
  - destruct (truthy key && negb (sales_summary_displayed before));
      [apply orderly_show_sales_summary | apply orderly_ret].
  - intros _. apply orderly_bind; [apply orderly_replay_history | intros _].
    destruct ci as [[|c rest]|]; try apply orderly_ret. apply orderly_answer_user.
Qed.

Lemma orderly_script (inp : run_input) : orderly (script X inp).
Proof.
  unfold script. apply orderly_bind; [apply orderly_run | intros agents].
  destruct (bigquery_setup inp) as [[]|e].
  - destruct (page inp); [apply orderly_display_chat_page | apply orderly_ret].
  - apply orderly_bind; [apply orderly_run | intros _; apply orderly_run].
Qed.

Lemma session_orderly (inputs : list run_input) (w : world) :
  let w' := fold_left (fun w inp => snd (script X inp w)) inputs w in
  (exists added : list (string * string),
      chat_history (session w') = (chat_history (session w) ++ added)%list
      /\ forallb (fun turn => known_role (fst turn)) added = true)
  /\ (sales_summary_displayed (session w) = true ->
      sales_summary_displayed (session w') = true).
Proof.
  revert w. induction inputs as [|inp inputs IH]; intros w; simpl.
  - split; [exists []; now rewrite app_nil_r | trivial].
  - destruct (orderly_script inp w) as [[a1 [H1 K1]] F1].
    destruct (IH (snd (script X inp w))) as [[a2 [H2 K2]] F2]. split.
    + exists (a1 ++ a2)%list. rewrite H2, H1, app_assoc, forallb_app, K1, K2. now split.
    + auto.
Qed.

(** X14. Every turn of a session's history carries one of the four roles
    the page writes: [assistant], [user], [agent_01] or [agent_02]. *)
Theorem history_roles (inputs : list run_input) :
  forallb (fun turn => known_role (fst turn))
          (chat_history (session (run_session X inputs))) = true.
Proof.
  unfold run_session.
  destruct (session_orderly inputs initial_world) as [[added [H K]] _].
  rewrite H. exact K.
Qed.

(** X15. The summary flag is never unset: once a run has set it, it is
    set after every later run of the session, whatever those runs do. *)
Theorem summary_flag_stays_set (inputs more : list run_input) :
  sales_summary_displayed (session (run_session X inputs)) = true ->
  sales_summary_displayed (session (run_session X (inputs ++ more))) = true.
Proof.
  unfold run_session. rewrite fold_left_app. apply session_orderly.
Qed.

End Page.

Lemma returns_bind {A B : Type} (m : P A) (k : A -> P B) :
  returns m -> (forall a, returns (k a)) -> returns (bind m k).
Proof.
  intros Hm Hk w. unfold bind. destruct (Hm w) as [a Ha].
  destruct (m w) as [[a'|e] w1]; simpl in *; [|discriminate].
  apply Hk.
Qed.

Lemma returns_run_emit (ev : event) : returns (run (emit ev)).
Proof. intros w. now exists tt. Qed.

Lemma returns_history_append (turn : string * string) : returns (history_append turn).
Proof. intros w. now exists tt. Qed.

Lemma run_raises {A : Type} (m : M A) (w : world) (e : exn) :
  fst (run m w) = Raise e -> fst (m (effects w)) = Raise e.
Proof. unfold run. now destruct (m (effects w)). Qed.

Lemma configure_gemini_exact (inp : run_input) (t : trace) :
  exists (m a1 a2 : option agent) (added : trace),
    configure_gemini inp t = (Ret (m, a1, a2), (t ++ added)%list)
    /\ forallb is_notice added = true
    /\ (a2 <> None -> a1 <> None /\ genai_failure inp = None)
    /\ (a1 <> None -> m <> None)
    /\ (m <> None -> truthy (gemini_api_key inp) = true).
Proof.
  unfold configure_gemini.
  destruct (truthy (gemini_api_key inp)).
  - destruct (genai_failure inp) as [[step e]|].
    + unfold bind, emit, logging_error, emit, ret. cbn.
      destruct step; do 4 eexists; (split; [now rewrite <- app_assoc|]);
        (split; [reflexivity|]); (split; [|split]);
        try (intros Hset; now destruct Hset); try congruence; reflexivity.
    + unfold bind, emit, ret. cbn. do 4 eexists. split; [reflexivity|].
      split; [reflexivity|]. split; [|split]; try congruence. intros _. split; congruence.
  - unfold bind, emit, ret. cbn. do 4 eexists. split; [reflexivity|].
    split; [reflexivity|]. split; [|split]; intros Hset; now destruct Hset.
Qed.

(** X16. After the configuration step [agent_02] is set only if
    [agent_01] is, [agent_01] only if [model] is, and nothing is set without
    a key; the step itself never raises and calls no service. *)
Theorem configuration_order (inp : run_input) (t : trace) :
  exists (m a1 a2 : option agent) (added : trace),
    configure_gemini inp t = (Ret (m, a1, a2), (t ++ added)%list)
    /\ forallb is_notice added = true
    /\ (a2 <> None -> a1 <> None /\ genai_failure inp = None)
    /\ (a1 <> None -> m <> None)
    /\ (m <> None -> truthy (gemini_api_key inp) = true).
Proof. apply configure_gemini_exact. Qed.

Section Runs.

Context {SM : StrMethods}.
Variable X : services.

Lemma answer_user_replied (G : globals) (u reply : string) (w : world) (t' : trace) :
  categorize_task X G u (effects (asked w u)) = (Ret reply, t') ->
  answer_user X G u w
  = (Ret tt,
     {| session :=
          {| chat_history :=
               (chat_history (session w)
                ++ [("user", u); (role_of (is_query_related u), reply)])%list;
             sales_summary_displayed := sales_summary_displayed (session w) |};
        effects := (t' ++ [ChatMessage (role_of (is_query_related u)) reply])%list |}).
Proof.
  intros H. unfold asked in H. simpl in H.
  unfold answer_user, bind, history_append, run, chat_message, emit. simpl.
  rewrite H. simpl. now rewrite <- app_assoc.
Qed.

Lemma answer_user_raised (G : globals) (u : string) (e : exn) (w : world) (t' : trace) :
  categorize_task X G u (effects (asked w u)) = (Raise e, t') ->
  answer_user X G u w
  = (Raise e, {| session := session (asked w u); effects := t' |}).
Proof.
  intros H. unfold asked in *. simpl in H.
  unfold answer_user, bind, history_append, run, chat_message, emit. simpl.
  now rewrite H.
Qed.

(** X17. The user's turn is stored and shown before the router is
    called.  When the router returns, its reply is stored after it under
    [agent_01] for a text with a routing keyword and under [agent_02]
    otherwise, whatever the reply is; when the router raises, the exception
    leaves the page and the user's turn stays in the history without a
    reply. *)
Theorem answer_user_outcomes (G : globals) (u : string) (w : world) (t' : trace) :
  (forall reply,
      categorize_task X G u (effects (asked w u)) = (Ret reply, t') ->
      answer_user X G u w
      = (Ret tt,
         {| session :=
              {| chat_history :=
                   (chat_history (session w)
                    ++ [("user", u); (role_of (is_query_related u), reply)])%list;
                 sales_summary_displayed := sales_summary_displayed (session w) |};
            effects := (t' ++ [ChatMessage (role_of (is_query_related u)) reply])%list |}))
  /\ (forall e,
        categorize_task X G u (effects (asked w u)) = (Raise e, t') ->
        answer_user X G u w
        = (Raise e, {| session := session (asked w u); effects := t' |})).
Proof.
  split; [intros reply; apply answer_user_replied | intros e; apply answer_user_raised].
Qed.

Lemma categorize_task_raises (G : globals) (u : string) (t : trace) (e : exn) :
  fst (categorize_task X G u t) = Raise e ->
  e = NameError "random" /\ is_query_related u = false.
Proof.
  intros H. destruct (is_query_related u) eqn:Hq.
  - destruct (categorize_task_data_returns X G u t Hq) as [reply Hr]. congruence.
  - split; [|reflexivity]. unfold categorize_task in H. rewrite Hq in H.
    destruct (agent_02 G) as [a|] eqn:Ha.
    + destruct (gemini X t a (general_prompt u)) as [s|e'] eqn:Hg.
      * destruct (truthy (strip s)) eqn:Hs.
        -- rewrite (handle_general_questions_answer X G a u s t Ha Hg Hs) in H. discriminate.
        -- rewrite (handle_general_questions_blank X G a u s t Ha Hg Hs) in H.
           simpl in H. congruence.
      * rewrite (handle_general_questions_failure X G a u e' t Ha Hg) in H.
        simpl in H. congruence.
    + rewrite (handle_general_questions_unconfigured X G u t Ha) in H. discriminate.
Qed.

Lemma returns_show_sales_summary : returns (show_sales_summary X).
Proof.
  unfold show_sales_summary.
  apply returns_bind.
  - intros w. unfold run.
    destruct (display_sales_summary_returns X (effects w)) as [summary Hs].
    destruct (display_sales_summary X (effects w)) as [r t]. simpl in *. now exists summary.
  - intros summary. apply returns_bind; [|intros _ w; now exists tt].
    destruct summary as [[|c rest]|];
      (apply returns_bind; [apply returns_run_emit | intros _; apply returns_history_append]).
Qed.

Lemma returns_replay_history : returns replay_history.
Proof. intros w. rewrite replay_history_exact. now exists tt. Qed.

Lemma answer_user_raises (G : globals) (u : string) (w : world) (e : exn) :
  fst (answer_user X G u w) = Raise e ->
  e = NameError "random" /\ is_query_related u = false.
Proof.
  destruct (categorize_task X G u (effects (asked w u))) as [[reply|e'] t'] eqn:Hc.
  - rewrite (answer_user_replied G u reply w t' Hc). discriminate.
  - rewrite (answer_user_raised G u e' w t' Hc). simpl. intros H. injection H as <-.
    apply (categorize_task_raises G u (effects (asked w u))). now rewrite Hc.
Qed.

(** X18. A run of the script can end with an exception in one way only:
    on the chat page, for a text without routing keyword, with the
    [NameError] of the unbound name [random].  Failures of the warehouse,
    of the model on a data question, and of the set-up never end a run. *)
Theorem script_raises_only_name_error (inp : run_input) (w : world) (e : exn) :
  fst (script X inp w) = Raise e ->
  e = NameError "random"
  /\ page inp = Chat
  /\ exists u : string, chat_input inp = Some u /\ is_query_related u = false.
Proof.
  unfold script. intros H. apply bind_raises in H as [H | [agents [_ H]]].
  { apply run_raises in H. destruct (configure_gemini_exact inp (effects w))
      as [m [a1 [a2 [added [E _]]]]]. rewrite E in H. discriminate. }
  destruct (bigquery_setup inp) as [[]|e'].
  - destruct (page inp); [|discriminate].
    unfold display_chat_page in H.
    apply bind_raises in H as [H | [before [_ H]]]; [discriminate|].
    apply bind_raises in H as [H | [[] [_ H]]].
    { exfalso. revert H.
      destruct (truthy (gemini_api_key inp) && negb (sales_summary_displayed before));
        [apply (returns_never_raises _ _ _ returns_show_sales_summary)
        | discriminate]. }
    apply bind_raises in H as [H | [[] [_ H]]].
    { exfalso. revert H. apply (returns_never_raises _ _ _ returns_replay_history). }
    destruct (chat_input inp) as [[|c rest]|]; try discriminate.
    apply answer_user_raises in H as [-> Hq].
    split; [reflexivity|]. split; [reflexivity|]. now eexists.
  - exfalso. apply bind_raises in H as [H | [[] [_ H]]]; discriminate.
Qed.

(** X19. Only the chat page touches the session: a run that shows the
    dashboard, or that stops because BigQuery could not be set up, returns
    normally, leaves the history and the flag as they were, and records
    notices only (no query, no model call, no chat message). *)
Theorem only_chat_page_touches_session (inp : run_input) (w : world) :
  page inp = Dashboard \/ (exists e, bigquery_setup inp = Raise e) ->
  fst (script X inp w) = Ret tt
  /\ session (snd (script X inp w)) = session w
  /\ exists added : trace,
       effects (snd (script X inp w)) = (effects w ++ added)%list
       /\ forallb is_notice added = true.
Proof.
  intros H.
  destruct (configure_gemini_exact inp (effects w)) as [m [a1 [a2 [added [E [N _]]]]]].
  assert (Hs : exists added' : trace,
             forallb is_notice added' = true
             /\ script X inp w
                = (Ret tt, {| session := session w;
                              effects := (effects w ++ added')%list |})).
  { unfold script, bind, run. rewrite E. destruct (bigquery_setup inp) as [[]|e].
    - destruct H as [-> | [e He]]; [|discriminate]. now exists added.
    - unfold st_error, logging_error, emit. cbn. eexists.
      rewrite <- !app_assoc. split; [|reflexivity].
      rewrite forallb_app, N. reflexivity. }
  destruct Hs as [added' [N' ->]]. cbn.
  split; [reflexivity|]. split; [reflexivity|]. now exists added'.
Qed.

Lemma show_sales_summary_exact (w : world) :
  exists (text : string) (pre : trace),
    show_sales_summary X w
    = (Ret tt,
       {| session :=
            {| chat_history := (chat_history (session w) ++ [("assistant", text)])%list;
               sales_summary_displayed := true |};
          effects := (effects w ++ pre ++ [ChatMessage "assistant" text])%list |}).
Proof.
  unfold show_sales_summary, bind, run, display_sales_summary, try_except, bind,
    client_query, lift, st_error, logging_error, emit, mark_summary_displayed,
    history_append, chat_message, emit.
  destruct (bigquery X (effects w) summary_query) as [rows|e].
  - destruct (map_result summary_line rows) as [lines|e].
    + cbn. destruct (join nl lines) as [|c rest]; cbn.
      * exists no_summary_message, [Query summary_query]. now rewrite <- app_assoc.
      * eexists. exists [Query summary_query]. now rewrite <- app_assoc.
    + cbn. exists no_summary_message.
      exists [Query summary_query;
              StError ("Error fetching sales summary: " ++ str_exn e);
              LogError ("Error fetching sales summary: " ++ str_exn e)].
      now rewrite <- !app_assoc.
  - cbn. exists no_summary_message.
    exists [Query summary_query;
            StError ("Error fetching sales summary: " ++ str_exn e);
            LogError ("Error fetching sales summary: " ++ str_exn e)].
    now rewrite <- !app_assoc.
Qed.

Lemma answer_user_extends (G : globals) (u : string) (w : world) :
  exists added : trace,
    effects (snd (answer_user X G u w)) = (effects w ++ added)%list.
Proof.
  destruct (categorize_task_events X G u (effects (asked w u))) as [added [Ht _]].
  destruct (categorize_task X G u (effects (asked w u))) as [[reply|e] t'] eqn:Hc;
    simpl in Ht; subst t'.
  - rewrite (answer_user_replied G u reply w _ Hc). simpl.
    eexists. now rewrite <- !app_assoc.
  - rewrite (answer_user_raised G u e w _ Hc). simpl.
    eexists. now rewrite <- !app_assoc.
Qed.

(** X20. On the render that produces the summary turn, that turn is
    written to the page twice: once by the summary block itself and once
    more when the history, which now ends with it, is shown again. *)
Theorem summary_message_shown_twice (G : globals) (key : string) (ci : option string)
                                    (w : world) :
  truthy key = true ->
  sales_summary_displayed (session w) = false ->
  exists (text : string) (pre rest : trace),
    effects (snd (display_chat_page X G key ci w))
    = (effects w ++ pre
       ++ [ChatMessage "assistant" text]
       ++ messages (chat_history (session w))
       ++ [ChatMessage "assistant" text]
       ++ rest)%list.
Proof.
  intros Hkey Hflag.
  unfold display_chat_page, bind at 1, read_session. rewrite Hkey, Hflag. simpl andb.
  destruct (show_sales_summary_exact w) as [text [pre Hshow]].
  unfold bind at 1. rewrite Hshow.
  unfold bind at 1. rewrite replay_history_exact. cbn [session effects chat_history].
  exists text, pre. unfold messages at 1. rewrite map_app. simpl map.
  fold (messages (chat_history (session w))).
  destruct ci as [[|c rest]|].
  - exists []. simpl. now rewrite <- !app_assoc.
  - match goal with |- context [answer_user X G ?u ?w1] =>
      destruct (answer_user_extends G u w1) as [added Ha] end.
    rewrite Ha. exists added. simpl. now rewrite <- !app_assoc.
  - exists []. simpl. now rewrite <- !app_assoc.
Qed.

End Runs.

(** * Further properties on ASCII text *)

Lemma ascii_lower_app (a b : string) :
  ascii_lower (a ++ b) = ascii_lower a ++ ascii_lower b.
Proof. induction a as [|c a IH]; simpl; [reflexivity | now rewrite IH]. Qed.

(** X21. A routing keyword is recognised in any letter case and anywhere
    in the text, also inside a longer word: such a text is a data
    question. *)
Theorem keyword_any_case_anywhere (before word after : string) :
  In (ascii_lower word) query_related_keywords ->
  is_query_related (before ++ word ++ after) = true.
Proof.
  intros Hin. apply (is_query_related_true (before ++ word ++ after) (ascii_lower word) Hin).
  exists (ascii_lower before), (ascii_lower after).
  change (lower (before ++ word ++ after)) with (ascii_lower (before ++ word ++ after)).
  now rewrite !ascii_lower_app.
Qed.

Lemma keyword_any_case_anywhere_witness :
  is_query_related ("How many " ++ "BRANCH" ++ "es are there?") = true.
Proof.
  apply (keyword_any_case_anywhere "How many " "BRANCH" "es are there?").
  simpl. tauto.
Defined.

Ltac own_entry X a text Hlow i :=
  split;
  [ unfold is_query_related; change (lower text) with (ascii_lower text);
    rewrite Hlow; reflexivity
  | apply (match_guide_hit X a text (firstn i query_guide) _ _
                           (skipn (S i) query_guide));
    [ let q := fresh "q" in
      let d := fresh "d" in
      let Hin := fresh "Hin" in
      let E := fresh "E" in
      intros q d Hin; apply contains_false;
      change (lower text) with (ascii_lower text); rewrite Hlow;
      simpl in Hin;
      repeat (destruct Hin as [E|Hin]; [injection E as <- <-; reflexivity|]);
      contradiction
    | apply contains_spec; change (lower text) with (ascii_lower text);
      rewrite Hlow; reflexivity ] ].

(** X22. No entry of the catalogue in force is shadowed by an earlier
    one: a text that is the canonical question of an entry, in any letter
    case, is a data question and is answered by that very entry. *)
Theorem canonical_question_selects_own_entry
    (X : services) (a : agent) (question : string) (d : details) (text : string) :
  In (question, d) query_guide ->
  ascii_lower text = ascii_lower question ->
  is_query_related text = true
  /\ match_guide X a text query_guide = answer_from_guide X d.
Proof.
  intros Hin Hlow. simpl in Hin.
  destruct Hin as [E|[E|[E|[E|[E|[E|[E|[E|[]]]]]]]]];
    injection E as <- <-.
  - own_entry X a text Hlow 0%nat.
  - own_entry X a text Hlow 1%nat.
  - own_entry X a text Hlow 2%nat.
  - own_entry X a text Hlow 3%nat.
  - own_entry X a text Hlow 4%nat.
  - own_entry X a text Hlow 5%nat.
  - own_entry X a text Hlow 6%nat.
  - own_entry X a text Hlow 7%nat.
Qed.

Lemma canonical_question_selects_own_entry_witness :
  is_query_related "WHICH BRANCH IS CURRENTLY THE FURTHEST FROM ITS TARGET?" = true
  /\ match_guide (fixed_services (Ret []) (Ret EmptyString)) gemini_pro
                 "WHICH BRANCH IS CURRENTLY THE FURTHEST FROM ITS TARGET?" query_guide
     = answer_from_guide (fixed_services (Ret []) (Ret EmptyString)) furthest_details.
Proof.
  apply (canonical_question_selects_own_entry
           (fixed_services (Ret []) (Ret EmptyString)) gemini_pro
           furthest_question furthest_details
           "WHICH BRANCH IS CURRENTLY THE FURTHEST FROM ITS TARGET?").
  - simpl. do 7 right. left. reflexivity.
  - reflexivity.
Defined.

(** * Instances of the further properties *)

Lemma catalogue_answer_needs_no_model_witness :
  exists (reply : string) (logged : trace),
    categorize_task (fixed_services (Ret [short_row]) (Ret EmptyString))
                    (configured query_guide) furthest_question []
    = (Ret reply, ([] ++ Query (query furthest_details) :: logged)%list)
    /\ count_events is_generate logged = 0%nat
    /\ count_events is_query logged = 0%nat.
Proof.
  apply (catalogue_answer_needs_no_model
           (fixed_services (Ret [short_row]) (Ret EmptyString))
           (configured query_guide) gemini_pro furthest_question []
           (firstn 7 query_guide) furthest_question furthest_details []).
  - reflexivity.
  - reflexivity.
  - reflexivity.
  - none_occurs.
  - apply contains_spec. reflexivity.
Defined.

Lemma dynamic_query_runs_model_text_verbatim_witness :
  (exists (reply : string) (logged : trace),
      categorize_task (fixed_services (Raise (ServiceError "syntax error"))
                                      (Ret " DROP TABLE sales "))
                      (configured query_guide) tea_question []
      = (Ret reply,
         ([] ++ GenerateContent (dynamic_query_prompt tea_question)
             :: Query "DROP TABLE sales" :: logged)%list)
      /\ count_events is_query logged = 0%nat)
  /\ categorize_task (fixed_services (Ret []) (Raise (ServiceError "quota")))
                     (configured query_guide) tea_question []
     = (Ret apology,
        [GenerateContent (dynamic_query_prompt tea_question);
         LogError "Error in Agent 01 task categorization: quota"]).
Proof.
  split.
  - destruct (dynamic_query_runs_model_text_verbatim
                (fixed_services (Raise (ServiceError "syntax error"))
                                (Ret " DROP TABLE sales "))
                (configured query_guide) gemini_pro tea_question [])
      as [Hanswered _]; [reflexivity | reflexivity | none_occurs |].
    apply (Hanswered " DROP TABLE sales "). reflexivity.
  - destruct (dynamic_query_runs_model_text_verbatim
                (fixed_services (Ret []) (Raise (ServiceError "quota")))
                (configured query_guide) gemini_pro tea_question [])
      as [_ Hrefused]; [reflexivity | reflexivity | none_occurs |].
    apply (Hrefused (ServiceError "quota")). reflexivity.
Defined.

Lemma dynamic_rows_rendered_witness :
  fst (categorize_task (fixed_services (Ret [short_row; silom_row]) (Ret " SELECT 1 "))
                       (configured query_guide) tea_question [])
  = Ret ("Branch_ID: B01, Branch_Name: Silom" ++ nl
         ++ "Branch_ID: B01, Branch_Name: Silom, Sales: 150000").
Proof.
  apply (dynamic_rows_rendered
           (fixed_services (Ret [short_row; silom_row]) (Ret " SELECT 1 "))
           (configured query_guide) gemini_pro tea_question " SELECT 1 " []
           short_row [silom_row]).
  - reflexivity.
  - reflexivity.
  - none_occurs.
  - reflexivity.
  - reflexivity.
Defined.

Lemma result_column_collision_witness :
  exists msg : string,
    categorize_task (fixed_services (Ret [result_row]) (Ret EmptyString))
                    (configured query_guide) furthest_question []
    = (Ret apology,
       ([] ++ [Query (query furthest_details);
               LogError ("Error in Agent 01 task categorization: " ++ msg)])%list).
Proof.
  apply (result_column_collision
           (fixed_services (Ret [result_row]) (Ret EmptyString))
           (configured query_guide) gemini_pro furthest_question []
           (firstn 7 query_guide) furthest_question furthest_details []
           result_row []).
  - reflexivity.
  - reflexivity.
  - reflexivity.
  - none_occurs.
  - apply contains_spec. reflexivity.
  - reflexivity.
  - reflexivity.
Defined.

Lemma data_question_reply_witness :
  exists (reply : string) (added : trace),
    categorize_task (fixed_services (Raise (ServiceError "down")) (Ret EmptyString))
                    (configured query_guide) furthest_question []
    = (Ret reply, ([] ++ added)%list)
    /\ (existsb is_log added = true -> reply = apology).
Proof.
  apply (data_question_reply
           (fixed_services (Raise (ServiceError "down")) (Ret EmptyString))
           (configured query_guide) furthest_question []).
  reflexivity.
Defined.

Lemma summary_shown_witness :
  show_sales_summary (fixed_services (Ret [daily_row; daily_row]) (Ret EmptyString))
                     initial_world
  = (Ret tt,
     {| session :=
          {| chat_history := [("assistant", summary_of [daily_row; daily_row])];
             sales_summary_displayed := true |};
        effects := [Query summary_query;
                    ChatMessage "assistant" (summary_of [daily_row; daily_row])] |}).
Proof.
  apply (summary_shown (fixed_services (Ret [daily_row; daily_row]) (Ret EmptyString))
                       initial_world daily_row [daily_row]); reflexivity.
Defined.

Lemma summary_failure_not_retried_witness :
  show_sales_summary (fixed_services (Raise (ServiceError "down")) (Ret EmptyString))
                     initial_world
  = without_summary initial_world
      [Query summary_query;
       StError "Error fetching sales summary: down";
       LogError "Error fetching sales summary: down"].
Proof.
  apply (summary_failure_not_retried
           (fixed_services (Raise (ServiceError "down")) (Ret EmptyString))
           initial_world (ServiceError "down")).
  reflexivity.
Defined.


Lemma summary_flag_stays_set_witness :
  sales_summary_displayed
    (session (run_session (fixed_services (Ret []) (Ret EmptyString))
                          ([chat_turn "key" None]
                           ++ [chat_turn EmptyString (Some "hello"); dashboard_visit])))
  = true.
Proof.
  apply (summary_flag_stays_set (fixed_services (Ret []) (Ret EmptyString))
                                [chat_turn "key" None]
                                [chat_turn EmptyString (Some "hello"); dashboard_visit]).
  reflexivity.
Defined.

Lemma answer_user_outcomes_witness :
  answer_user (fixed_services (Ret []) (Raise (ServiceError "down")))
              (configured query_guide) "hello" initial_world
  = (Raise (NameError "random"),
     {| session := {| chat_history := [("user", "hello")];
                      sales_summary_displayed := false |};
        effects := [ChatMessage "user" "hello";
                    GenerateContent (general_prompt "hello");
                    LogError "Error in Agent 02 response generation: down"] |}).
Proof.
  apply (proj2 (answer_user_outcomes
                  (fixed_services (Ret []) (Raise (ServiceError "down")))
                  (configured query_guide) "hello" initial_world
                  [ChatMessage "user" "hello";
                   GenerateContent (general_prompt "hello");
                   LogError "Error in Agent 02 response generation: down"])
               (NameError "random")).
  reflexivity.
Defined.

Lemma script_raises_only_name_error_witness :
  NameError "random" = NameError "random"
  /\ page (chat_turn "key" (Some "hello")) = Chat
  /\ exists u : string,
       chat_input (chat_turn "key" (Some "hello")) = Some u
       /\ is_query_related u = false.
Proof.
  apply (script_raises_only_name_error
           (fixed_services (Ret []) (Raise (ServiceError "down")))
           (chat_turn "key" (Some "hello")) initial_world (NameError "random")).
  reflexivity.
Defined.

Lemma only_chat_page_touches_session_witness :
  fst (script (fixed_services (Ret [daily_row]) (Ret EmptyString))
              dashboard_visit initial_world) = Ret tt
  /\ session (snd (script (fixed_services (Ret [daily_row]) (Ret EmptyString))
                          dashboard_visit initial_world))
     = session initial_world
  /\ exists added : trace,
       effects (snd (script (fixed_services (Ret [daily_row]) (Ret EmptyString))
                            dashboard_visit initial_world))
       = (effects initial_world ++ added)%list
       /\ forallb is_notice added = true.
Proof.
  apply (only_chat_page_touches_session
           (fixed_services (Ret [daily_row]) (Ret EmptyString))
           dashboard_visit initial_world).
  left. reflexivity.
Defined.

Lemma summary_message_shown_twice_witness :
  exists (text : string) (pre rest : trace),
    effects (snd (display_chat_page (fixed_services (Ret [daily_row]) (Ret EmptyString))
                                    (configured query_guide) "key" None initial_world))
    = (effects initial_world ++ pre
       ++ [ChatMessage "assistant" text]
       ++ messages (chat_history (session initial_world))
       ++ [ChatMessage "assistant" text]
       ++ rest)%list.
Proof.
  apply (summary_message_shown_twice
           (fixed_services (Ret [daily_row]) (Ret EmptyString))
           (configured query_guide) "key" None initial_world); reflexivity.
Defined.
